(** * ShopSavvy Go SDK: client construction, request building and error mapping

    A shallow embedding of the Go package [shopsavvy] (the client, its
    functional options, the endpoint methods, [handleErrorResponse], the
    error types and the response envelope), with the properties the
    specification states about them.

    Conventions.
    - Go [string] is a byte string: Stdlib's [string] (a list of [ascii]).
    - Go [int] (status codes, credits) and [time.Duration] (nanoseconds) are
      [Z]; no arithmetic in the modelled code can overflow.
    - [map[string]string] and the string-valued [map[string]interface{}]
      request bodies are [gmap string string].
    - A variadic parameter ([format ...string], [options ...Option]) is a list.
    - A Go function returning a pointer to [T] and an [error] returns
      [error + T]: [inl e] is the pair of [nil] and [e], [inr v] is the pair
      of a pointer to [v] and [nil]. *)

From Stdlib Require Import ZArith String Ascii List Bool Lia.
From Stdlib Require PrimFloat.
From stdpp Require Import base option gmap strings list pretty.
Import ListNotations.

Local Open Scope string_scope.
Local Open Scope Z_scope.

(** ** Regular expressions: the fragment used by the key pattern

    [regexp.MatchString] belongs to Go's standard library.  The pattern the
    client passes is a literal, so it is given here as syntax, and matching
    is done by Brzozowski derivatives.  The pattern starts with [^] and ends
    with [$] (no flags), so the unanchored search of [MatchString] succeeds
    exactly when the whole text is in the language of what stands between
    the two anchors.  The classes of the pattern are ASCII ranges, hence a
    byte above 127 (any part of a multi-byte rune) is in none of them and
    matching byte by byte agrees with matching rune by rune. *)
Module Regexp.

Inductive regex : Type :=
| Void : regex
| Eps : regex
| Lit (c : ascii) : regex
| Class (p : ascii -> bool) : regex
| Cat (r1 r2 : regex) : regex
| Alt (r1 r2 : regex) : regex
| Star (r : regex) : regex.

(** [r+] *)
Definition Plus (r : regex) : regex := Cat r (Star r).

(** A literal word, [Cat] of its letters. *)
Fixpoint Word (w : list ascii) : regex :=
  match w with
  | [] => Eps
  | c :: w' => Cat (Lit c) (Word w')
  end.

(** The language of a regular expression. *)
Inductive Matches : regex -> list ascii -> Prop :=
| MEps : Matches Eps []
| MLit c : Matches (Lit c) [c]
| MClass p c : p c = true -> Matches (Class p) [c]
| MCat r1 r2 s1 s2 : Matches r1 s1 -> Matches r2 s2 -> Matches (Cat r1 r2) (s1 ++ s2)
| MAltL r1 r2 s : Matches r1 s -> Matches (Alt r1 r2) s
| MAltR r1 r2 s : Matches r2 s -> Matches (Alt r1 r2) s
| MStar0 r : Matches (Star r) []
| MStarS r s1 s2 : Matches r s1 -> Matches (Star r) s2 -> Matches (Star r) (s1 ++ s2).

Fixpoint nullable (r : regex) : bool :=
  match r with
  | Void => false
  | Eps => true
  | Lit _ => false
  | Class _ => false
  | Cat r1 r2 => nullable r1 && nullable r2
  | Alt r1 r2 => nullable r1 || nullable r2
  | Star _ => true
  end.

Fixpoint deriv (a : ascii) (r : regex) : regex :=
  match r with
  | Void => Void
  | Eps => Void
  | Lit c => if Ascii.eqb a c then Eps else Void
  | Class p => if p a then Eps else Void
  | Cat r1 r2 =>
      if nullable r1 then Alt (Cat (deriv a r1) r2) (deriv a r2)
      else Cat (deriv a r1) r2
  | Alt r1 r2 => Alt (deriv a r1) (deriv a r2)
  | Star r1 => Cat (deriv a r1) (Star r1)
  end.

(** Whole-text match. *)
Fixpoint fullmatch (r : regex) (s : list ascii) : bool :=
  match s with
  | [] => nullable r
  | a :: s' => fullmatch (deriv a r) s'
  end.

End Regexp.

(** ** Go standard library functions used by the client *)

(** [strings.Join]: no element gives the empty string, one element gives
    that element, otherwise the builder receives the first element and then,
    for every further element, the separator followed by the element. *)
Definition Join (elems : list string) (sep : string) : string :=
  match elems with
  | [] => ""
  | [e] => e
  | e :: rest => fold_left (fun b s => (b ++ sep) ++ s) rest e
  end.

(** [http.StatusText]: the reason phrase of a status code, empty for a code
    the table does not list. *)
Definition StatusText (code : Z) : string :=
  match code with
  | 100 => "Continue"
  | 101 => "Switching Protocols"
  | 102 => "Processing"
  | 103 => "Early Hints"
  | 200 => "OK"
  | 201 => "Created"
  | 202 => "Accepted"
  | 203 => "Non-Authoritative Information"
  | 204 => "No Content"
  | 205 => "Reset Content"
  | 206 => "Partial Content"
  | 207 => "Multi-Status"
  | 208 => "Already Reported"
  | 226 => "IM Used"
  | 300 => "Multiple Choices"
  | 301 => "Moved Permanently"
  | 302 => "Found"
  | 303 => "See Other"
  | 304 => "Not Modified"
  | 305 => "Use Proxy"
  | 307 => "Temporary Redirect"
  | 308 => "Permanent Redirect"
  | 400 => "Bad Request"
  | 401 => "Unauthorized"
  | 402 => "Payment Required"
  | 403 => "Forbidden"
  | 404 => "Not Found"
  | 405 => "Method Not Allowed"
  | 406 => "Not Acceptable"
  | 407 => "Proxy Authentication Required"
  | 408 => "Request Timeout"
  | 409 => "Conflict"
  | 410 => "Gone"
  | 411 => "Length Required"
  | 412 => "Precondition Failed"
  | 413 => "Request Entity Too Large"
  | 414 => "Request URI Too Long"
  | 415 => "Unsupported Media Type"
  | 416 => "Requested Range Not Satisfiable"
  | 417 => "Expectation Failed"
  | 418 => "I'm a teapot"
  | 421 => "Misdirected Request"
  | 422 => "Unprocessable Entity"
  | 423 => "Locked"
  | 424 => "Failed Dependency"
  | 425 => "Too Early"
  | 426 => "Upgrade Required"
  | 428 => "Precondition Required"
  | 429 => "Too Many Requests"
  | 431 => "Request Header Fields Too Large"
  | 451 => "Unavailable For Legal Reasons"
  | 500 => "Internal Server Error"
  | 501 => "Not Implemented"
  | 502 => "Bad Gateway"
  | 503 => "Service Unavailable"
  | 504 => "Gateway Timeout"
  | 505 => "HTTP Version Not Supported"
  | 506 => "Variant Also Negotiates"
  | 507 => "Insufficient Storage"
  | 508 => "Loop Detected"
  | 510 => "Not Extended"
  | 511 => "Network Authentication Required"
  | _ => ""
  end.

(** [strings.TrimRight]: the text without its trailing characters that
    occur in the cutset.  Bytes are compared; for a cutset of ASCII
    characters, as here, that is what Go does rune by rune, the last byte of
    a longer rune being above 127. *)
Fixpoint dropWhile {A : Type} (p : A -> bool) (l : list A) : list A :=
  match l with
  | [] => []
  | x :: l' => if p x then dropWhile p l' else l
  end.

Definition TrimRight (s cutset : string) : string :=
  string_of_list_ascii
    (rev (dropWhile (fun c => existsb (Ascii.eqb c) (list_ascii_of_string cutset))
            (rev (list_ascii_of_string s)))).

(** The verb [%d] of [fmt.Sprintf] at an [int]: signed decimal. *)
Definition fmt_d (n : Z) : string := pretty n.

(** [time.Second], in nanoseconds. *)
Definition Second : Z := 1000000000.

(** ** Error values (errors.go)

    One constructor per error struct of the package, with the struct's
    fields.  Two more constructors stand for values of Go's [error]
    interface that the package does not define: the value [fmt.Errorf]
    builds, and the error the HTTP stack reports when no response arrives. *)

(** Why a round trip ended without a response. *)
Inductive TransportFault : Type :=
| DeadlineExceeded
| NoResponse (reason : string).

Inductive error : Type :=
| APIError (Message : string) (StatusCode : Z)
| AuthenticationError (Message : string) (StatusCode : Z)
| NotFoundError (Message : string) (StatusCode : Z)
| ValidationError (Message : string) (StatusCode : Z)
| RateLimitError (Message : string) (StatusCode : Z)
| NetworkError (Message : string)
| TimeoutError (Message : string)
| ErrorString (text : string)
| TransportError (fault : TransportFault)
| UnmarshalError (reason : string).

(** The dynamic type of an error value. *)
Inductive ErrorKind : Type :=
| KAPI | KAuthentication | KNotFound | KValidation | KRateLimit
| KNetwork | KTimeout | KErrorString | KTransport | KUnmarshal.

Definition kind (e : error) : ErrorKind :=
  match e with
  | APIError _ _ => KAPI
  | AuthenticationError _ _ => KAuthentication
  | NotFoundError _ _ => KNotFound
  | ValidationError _ _ => KValidation
  | RateLimitError _ _ => KRateLimit
  | NetworkError _ => KNetwork
  | TimeoutError _ => KTimeout
  | ErrorString _ => KErrorString
  | TransportError _ => KTransport
  | UnmarshalError _ => KUnmarshal
  end.

(** The [Message] field, for the structs that have one. *)
Definition Message (e : error) : option string :=
  match e with
  | APIError m _ | AuthenticationError m _ | NotFoundError m _
  | ValidationError m _ | RateLimitError m _
  | NetworkError m | TimeoutError m => Some m
  | ErrorString _ | TransportError _ | UnmarshalError _ => None
  end.

(** The [StatusCode] field, for the structs that have one. *)
Definition StatusCode (e : error) : option Z :=
  match e with
  | APIError _ c | AuthenticationError _ c | NotFoundError _ c
  | ValidationError _ c | RateLimitError _ c => Some c
  | _ => None
  end.

(** The [Error()] methods of the package's structs; the text of a
    [fmt.Errorf] value is its format string, which has no verb here.  The
    text of an error made outside the package is not modelled. *)
Definition Error (e : error) : option string :=
  match e with
  | APIError m c => Some ("API error (" ++ fmt_d c ++ "): " ++ m)
  | AuthenticationError m c => Some ("Authentication error (" ++ fmt_d c ++ "): " ++ m)
  | NotFoundError m c => Some ("Not found error (" ++ fmt_d c ++ "): " ++ m)
  | ValidationError m c => Some ("Validation error (" ++ fmt_d c ++ "): " ++ m)
  | RateLimitError m c => Some ("Rate limit error (" ++ fmt_d c ++ "): " ++ m)
  | NetworkError m => Some ("Network error: " ++ m)
  | TimeoutError m => Some ("Timeout error: " ++ m)
  | ErrorString t => Some t
  | TransportError _ | UnmarshalError _ => None
  end.

(** ** Response and payload types (types.go, the version the client uses) *)

Record APIMeta : Type := {
  meta_CreditsUsed : Z;
  meta_CreditsRemaining : Z;
  meta_RateLimitRemaining : option Z
}.

Record APIResponse (T : Type) : Type := {
  Success : bool;
  Data : T;
  ResponseMessage : string;
  Meta : option APIMeta
}.
Arguments Success {T} _.
Arguments Data {T} _.
Arguments ResponseMessage {T} _.
Arguments Meta {T} _.

(** [func (r *APIResponse[T]) CreditsUsed() int] *)
Definition CreditsUsed {T} (r : APIResponse T) : Z :=
  match Meta r with
  | Some m => meta_CreditsUsed m
  | None => 0
  end.

(** [func (r *APIResponse[T]) CreditsRemaining() int] *)
Definition CreditsRemaining {T} (r : APIResponse T) : Z :=
  match Meta r with
  | Some m => meta_CreditsRemaining m
  | None => 0
  end.

Record APIErrorResponse : Type := { ErrorField : string }.

(** ** The HTTP layer as the client sees it

    The resty library, Go's HTTP client and the network are outside the
    package.  A request is what an endpoint method builds and submits to
    resty: method, path, query parameters and body, with the base URL and
    the headers it inherits from the client.  What resty and the HTTP
    client add on the way out (further headers such as [Accept], further
    requests when a redirect is followed) is theirs and is not recorded.  A
    response is what resty hands to the [OnAfterResponse] hook in the end:
    its status code, the error object registered with [SetError] as
    [resp.Error()] returns it ([None] when resty holds no such object), and
    the raw body. *)

Inductive HTTPMethod : Type := GET | POST | DELETE.

Record Request : Type := {
  req_Method : HTTPMethod;
  req_BaseURL : string;
  req_Path : string;
  req_Header : gmap string string;
  req_QueryParam : gmap string string;
  req_Body : option (gmap string string)
}.

Record Response : Type := {
  resp_StatusCode : Z;
  resp_Error : option APIErrorResponse;
  resp_Body : string
}.

(** [resty.Response.IsError] *)
Definition IsError (resp : Response) : bool := 399 <? resp_StatusCode resp.

(** How a submitted request ends: the HTTP stack gives up without a
    response (among the reasons, a redirect chain that is too long), or it
    returns a response, the last one if redirects were followed. *)
Inductive Outcome : Type :=
| TransportFailed (fault : TransportFault)
| Responded (resp : Response).

(** What resty leaves in the variable registered with [SetResult] after a
    response that is not an error, or the reason it could not fill it. *)
Class Unmarshal (R : Type) : Type := SetResult : Response -> string + R.

(** ** The client (client.go) *)

Record Config : Type := {
  APIKey : string;
  BaseURL : string;
  Timeout : Z
}.

(** [type Option]: a function on a pointer to [Config], that is an update of
    the configuration in place. *)
Definition Option : Type := Config -> Config.

Definition WithBaseURL (baseURL : string) : Option :=
  fun c => {| APIKey := APIKey c; BaseURL := baseURL; Timeout := Timeout c |}.

Definition WithTimeout (timeout : Z) : Option :=
  fun c => {| APIKey := APIKey c; BaseURL := BaseURL c; Timeout := timeout |}.

(** The settings [NewClient] gives the resty client. *)
Record RestyClient : Type := {
  rc_BaseURL : string;
  rc_Timeout : Z;
  rc_Header : gmap string string;
  rc_AfterResponse : Response -> option error
}.

Record Client : Type := {
  config : Config;
  client : RestyClient
}.

Definition Version : string := "1.0.1".

Definition isAlnum (c : ascii) : bool :=
  let n := nat_of_ascii c in
  ((97 <=? n) && (n <=? 122) || (65 <=? n) && (n <=? 90) || (48 <=? n) && (n <=? 57))%nat.

(** What stands between [^] and [$] in the pattern of [NewClient]:
    [ss_(live|test)_[a-zA-Z0-9]+]. *)
Definition apiKeyPattern : Regexp.regex :=
  Regexp.Cat (Regexp.Word (list_ascii_of_string "ss_"))
    (Regexp.Cat (Regexp.Alt (Regexp.Word (list_ascii_of_string "live"))
                            (Regexp.Word (list_ascii_of_string "test")))
       (Regexp.Cat (Regexp.Lit "_"%char) (Regexp.Plus (Regexp.Class isAlnum)))).

(** [regexp.MatchString] at the anchored pattern. *)
Definition MatchString (r : Regexp.regex) (s : string) : bool :=
  Regexp.fullmatch r (list_ascii_of_string s).

(** [handleErrorResponse] *)
Definition handleErrorResponse (resp : Response) : error :=
  let statusCode := resp_StatusCode resp in
  let errorMsg :=
    match resp_Error resp with
    | Some errorResp =>
        if negb (String.eqb (ErrorField errorResp) "")
        then ErrorField errorResp
        else "HTTP " ++ fmt_d statusCode ++ ": " ++ StatusText statusCode
    | None => "HTTP " ++ fmt_d statusCode ++ ": " ++ StatusText statusCode
    end in
  match statusCode with
  | 401 => AuthenticationError "Authentication failed. Check your API key." statusCode
  | 404 => NotFoundError "Resource not found" statusCode
  | 422 => ValidationError "Request validation failed. Check your parameters." statusCode
  | 429 => RateLimitError "Rate limit exceeded. Please slow down your requests." statusCode
  | _ => APIError errorMsg statusCode
  end.

(** ** Effects: the outbound requests

    The only effect of the package is to submit a request to its HTTP
    client.  A computation threads the log of the requests submitted so
    far. *)
Definition M (A : Type) : Type := list Request -> A * list Request.

Definition ret {A} (a : A) : M A := fun log => (a, log).

Definition bind {A B} (m : M A) (f : A -> M B) : M B :=
  fun log => let '(a, log') := m log in f a log'.

(** [NewClient]: the options run first, then the key is checked, then the
    resty client is configured; its [SetBaseURL] keeps the URL without
    trailing slashes.  Nothing is sent. *)
Definition NewClient (apiKey : string) (options : list Option) : M (error + Client) :=
  let config :=
    fold_left (fun c option => option c) options
      {| APIKey := apiKey;
         BaseURL := "https://api.shopsavvy.com/v1";
         Timeout := 30 * Second |} in
  if String.eqb (APIKey config) "" then
    ret (inl (ErrorString "API key is required. Get one at https://shopsavvy.com/data"))
  else
    let matched := MatchString apiKeyPattern (APIKey config) in
    if negb matched then
      ret (inl (ErrorString
        "invalid API key format. API keys should start with ss_live_ or ss_test_"))
    else
      let client :=
        {| rc_BaseURL := TrimRight (BaseURL config) "/";
           rc_Timeout := Timeout config;
           rc_Header :=
             <["User-Agent" := "ShopSavvy-Go-SDK/" ++ Version]>
               (<["Content-Type" := "application/json"]>
                  (<["Authorization" := "Bearer " ++ APIKey config]> ∅));
           rc_AfterResponse := fun resp =>
             if IsError resp then Some (handleErrorResponse resp) else None |} in
      ret (inr {| config := config; client := client |}).

(** ** Payload records (types.go) *)

Record ProductDetails : Type := {
  pd_Title : string;
  pd_ShopSavvy : string;
  pd_Brand : option string;
  pd_Category : option string;
  pd_Images : list string;
  pd_Barcode : option string;
  pd_Amazon : option string;
  pd_Model : option string;
  pd_MPN : option string;
  pd_Color : option string
}.

Record PriceHistoryEntry : Type := {
  ph_Date : string;
  ph_Price : PrimFloat.float;
  ph_Availability : string
}.

Record Offer : Type := {
  of_ID : string;
  of_Retailer : option string;
  of_Price : option PrimFloat.float;
  of_Currency : option string;
  of_Availability : option string;
  of_Condition : option string;
  of_URL : option string;
  of_Seller : option string;
  of_Timestamp : option string;
  of_History : list PriceHistoryEntry
}.

Record ProductWithOffers : Type := {
  pwo_ProductDetails : ProductDetails;
  pwo_Offers : list Offer
}.

Record OfferWithHistory : Type := {
  owh_Offer : Offer;
  owh_PriceHistory : list PriceHistoryEntry
}.

Record ScheduledProduct : Type := {
  sp_ProductID : string;
  sp_Identifier : string;
  sp_Frequency : string;
  sp_Retailer : option string;
  sp_CreatedAt : string;
  sp_LastRefreshed : option string
}.

Record UsagePeriod : Type := {
  up_StartDate : string;
  up_EndDate : string;
  up_CreditsUsed : Z;
  up_CreditsLimit : Z;
  up_CreditsRemaining : Z;
  up_RequestsMade : Z
}.

Record UsageInfo : Type := {
  ui_CurrentPeriod : UsagePeriod;
  ui_UsagePercentage : PrimFloat.float
}.

Record PaginationInfo : Type := {
  pg_Total : Z;
  pg_Limit : Z;
  pg_Offset : Z;
  pg_Returned : Z
}.

Record ProductSearchResult : Type := {
  psr_Success : bool;
  psr_Data : list ProductDetails;
  psr_Pagination : option PaginationInfo;
  psr_Meta : option APIMeta
}.

Record ScheduleResponse : Type := {
  sr_Scheduled : bool;
  sr_ProductID : string
}.

Record ScheduleBatchResponse : Type := {
  sbr_Identifier : string;
  sbr_Scheduled : bool;
  sbr_ProductID : string
}.

Record RemoveResponse : Type := { rr_Removed : bool }.

Record RemoveBatchResponse : Type := {
  rbr_Identifier : string;
  rbr_Removed : bool
}.

(** ** Requests (resty's request builder) *)

(** [c.client.R()]: a request that inherits the base URL and the headers
    of the client. *)
Definition R (c : Client) : Request :=
  {| req_Method := GET;
     req_BaseURL := rc_BaseURL (client c);
     req_Path := "";
     req_Header := rc_Header (client c);
     req_QueryParam := ∅;
     req_Body := None |}.

(** [SetQueryParams]: every given parameter replaces the one of its name. *)
Definition SetQueryParams (params : gmap string string) (req : Request) : Request :=
  {| req_Method := req_Method req;
     req_BaseURL := req_BaseURL req;
     req_Path := req_Path req;
     req_Header := req_Header req;
     req_QueryParam := params ∪ req_QueryParam req;
     req_Body := req_Body req |}.

Definition SetBody (body : gmap string string) (req : Request) : Request :=
  {| req_Method := req_Method req;
     req_BaseURL := req_BaseURL req;
     req_Path := req_Path req;
     req_Header := req_Header req;
     req_QueryParam := req_QueryParam req;
     req_Body := Some body |}.

Definition withTarget (m : HTTPMethod) (path : string) (req : Request) : Request :=
  {| req_Method := m;
     req_BaseURL := req_BaseURL req;
     req_Path := path;
     req_Header := req_Header req;
     req_QueryParam := req_QueryParam req;
     req_Body := req_Body req |}.

(** [len(v) > 0 && v[0] != ""], with the value it then reads. *)
Definition firstNonEmpty (v : list string) : option string :=
  match v with
  | f :: _ => if negb (String.eqb f "") then Some f else None
  | [] => None
  end.

(** [if cond { m[key] = v }] for an optional value. *)
Definition setIf (key : string) (v : option string) (m : gmap string string)
  : gmap string string :=
  match v with
  | Some x => <[key := x]> m
  | None => m
  end.

Section Transport.

(** The HTTP stack below the package (resty, Go's HTTP client with its
    redirect policy, the network and the remote service): how a submitted
    request ends, given the requests submitted before it. *)
Variable transport : list Request -> Request -> Outcome.

(** One submission.  The request is submitted; a transport failure is
    returned as the HTTP stack reports it; the response the stack returns
    goes through the client's [OnAfterResponse] hook, whose error, if any,
    is returned as it is; otherwise the result variable is filled. *)
Definition Execute {Res} `{Unmarshal Res} (c : Client) (req : Request) : M (error + Res) :=
  fun log =>
    let log' := (log ++ [req])%list in
    match transport log req with
    | TransportFailed fault => (inl (TransportError fault), log')
    | Responded resp =>
        match rc_AfterResponse (client c) resp with
        | Some err => (inl err, log')
        | None =>
            match SetResult resp with
            | inl reason => (inl (UnmarshalError reason), log')
            | inr v => (inr v, log')
            end
        end
    end.

Definition Get {Res} `{Unmarshal Res} (c : Client) (path : string) (req : Request) :=
  Execute (Res := Res) c (withTarget GET path req).
Definition Post {Res} `{Unmarshal Res} (c : Client) (path : string) (req : Request) :=
  Execute (Res := Res) c (withTarget POST path req).
Definition Delete {Res} `{Unmarshal Res} (c : Client) (path : string) (req : Request) :=
  Execute (Res := Res) c (withTarget DELETE path req).

(** [if err != nil { return nil, err }; return &response, nil] *)
Definition returnResponse {Res} (r : error + Res) : M (error + Res) :=
  match r with
  | inl err => ret (inl err)
  | inr response => ret (inr response)
  end.

Context {U1 : Unmarshal ProductSearchResult}
        {U2 : Unmarshal (APIResponse (list ProductDetails))}
        {U3 : Unmarshal (APIResponse (list ProductWithOffers))}
        {U4 : Unmarshal (APIResponse (list OfferWithHistory))}
        {U5 : Unmarshal (APIResponse ScheduleResponse)}
        {U6 : Unmarshal (APIResponse (list ScheduleBatchResponse))}
        {U7 : Unmarshal (APIResponse (list ScheduledProduct))}
        {U8 : Unmarshal (APIResponse RemoveResponse)}
        {U9 : Unmarshal (APIResponse (list RemoveBatchResponse))}
        {U10 : Unmarshal (APIResponse UsageInfo)}.

Definition SearchProducts (c : Client) (query : string) (limit offset : Z)
  : M (error + ProductSearchResult) :=
  let params : gmap string string := {[ "q" := query ]} in
  let params := if 0 <? limit then <["limit" := fmt_d limit]> params else params in
  let params := if 0 <? offset then <["offset" := fmt_d offset]> params else params in
  bind (Get c "/products/search" (SetQueryParams params (R c))) returnResponse.

Definition GetProductDetails (c : Client) (identifier : string) (format : list string)
  : M (error + APIResponse (list ProductDetails)) :=
  let params : gmap string string := {[ "ids" := identifier ]} in
  let params := setIf "format" (firstNonEmpty format) params in
  bind (Get c "/products" (SetQueryParams params (R c))) returnResponse.

Definition GetProductDetailsBatch (c : Client) (identifiers : list string)
    (format : list string) : M (error + APIResponse (list ProductDetails)) :=
  let params : gmap string string := {[ "ids" := Join identifiers "," ]} in
  let params := setIf "format" (firstNonEmpty format) params in
  bind (Get c "/products" (SetQueryParams params (R c))) returnResponse.

Definition GetCurrentOffers (c : Client) (identifier retailer : string)
    (format : list string) : M (error + APIResponse (list ProductWithOffers)) :=
  let params : gmap string string := {[ "ids" := identifier ]} in
  let params := if negb (String.eqb retailer "") then <["retailer" := retailer]> params else params in
  let params := setIf "format" (firstNonEmpty format) params in
  bind (Get c "/products/offers" (SetQueryParams params (R c))) returnResponse.

Definition GetCurrentOffersBatch (c : Client) (identifiers : list string)
    (retailer : string) (format : list string)
  : M (error + APIResponse (list ProductWithOffers)) :=
  let params : gmap string string := {[ "ids" := Join identifiers "," ]} in
  let params := if negb (String.eqb retailer "") then <["retailer" := retailer]> params else params in
  let params := setIf "format" (firstNonEmpty format) params in
  bind (Get c "/products/offers" (SetQueryParams params (R c))) returnResponse.

Definition GetPriceHistory (c : Client) (identifier startDate endDate retailer : string)
    (format : list string) : M (error + APIResponse (list OfferWithHistory)) :=
  let params : gmap string string :=
    <["end_date" := endDate]> (<["start_date" := startDate]> {[ "ids" := identifier ]}) in
  let params := if negb (String.eqb retailer "") then <["retailer" := retailer]> params else params in
  let params := setIf "format" (firstNonEmpty format) params in
  bind (Get c "/products/offers/history" (SetQueryParams params (R c))) returnResponse.

Definition ScheduleProductMonitoring (c : Client) (identifier frequency : string)
    (retailer : list string) : M (error + APIResponse ScheduleResponse) :=
  let body : gmap string string :=
    <["frequency" := frequency]> {[ "identifier" := identifier ]} in
  let body := setIf "retailer" (firstNonEmpty retailer) body in
  bind (Post c "/products/schedule" (SetBody body (R c))) returnResponse.

Definition ScheduleProductMonitoringBatch (c : Client) (identifiers : list string)
    (frequency : string) (retailer : list string)
  : M (error + APIResponse (list ScheduleBatchResponse)) :=
  let body : gmap string string :=
    <["frequency" := frequency]> {[ "identifiers" := Join identifiers "," ]} in
  let body := setIf "retailer" (firstNonEmpty retailer) body in
  bind (Post c "/products/schedule" (SetBody body (R c))) returnResponse.

Definition GetScheduledProducts (c : Client)
  : M (error + APIResponse (list ScheduledProduct)) :=
  bind (Get c "/products/scheduled" (R c)) returnResponse.

Definition RemoveProductFromSchedule (c : Client) (identifier : string)
  : M (error + APIResponse RemoveResponse) :=
  let body : gmap string string := {[ "identifier" := identifier ]} in
  bind (Delete c "/products/schedule" (SetBody body (R c))) returnResponse.

Definition RemoveProductsFromSchedule (c : Client) (identifiers : list string)
  : M (error + APIResponse (list RemoveBatchResponse)) :=
  let body : gmap string string := {[ "identifiers" := Join identifiers "," ]} in
  bind (Delete c "/products/schedule" (SetBody body (R c))) returnResponse.

Definition GetUsage (c : Client) : M (error + APIResponse UsageInfo) :=
  bind (Get c "/usage" (R c)) returnResponse.

End Transport.

(** ** Notions the properties are stated with *)

(** The key format in the words of the specification,
    [<prefix>_(live|test)_<alphanumeric>], at the prefix the pattern of
    [NewClient] fixes, [ss]: the prefix, an underscore, [live] or [test],
    an underscore, and a non-empty run of letters and digits. *)
Definition wellFormedKey (key : string) : Prop :=
  exists env suffix : string,
    key = "ss_" ++ env ++ "_" ++ suffix /\
    (env = "live" \/ env = "test") /\
    suffix <> "" /\
    Forall (fun c => isAlnum c = true) (list_ascii_of_string suffix).

(** An option that leaves the key of the configuration alone, as the two
    options of the package do. *)
Definition keepsAPIKey (o : Option) : Prop :=
  forall c : Config, APIKey (o c) = APIKey c.

(** The identifiers joined with commas in input order, in the words of the
    specification: each identifier but the last is followed by a comma. *)
Definition commaJoined (identifiers : list string) : string :=
  String.concat "," identifiers.

(** A status code that [handleErrorResponse] has no case of its own for. *)
Definition otherStatus (code : Z) : Prop :=
  code <> 401 /\ code <> 404 /\ code <> 422 /\ code <> 429.

(** The fallback message of the specification, [HTTP <code>: <reason phrase>]. *)
Definition fallbackMessage (code : Z) : string :=
  "HTTP " ++ fmt_d code ++ ": " ++ StatusText code.

(** ** Values of the scenarios *)

Definition dquote : string := String (ascii_of_nat 34) "".

(** The body [{"error":"too many requests"}]. *)
Definition tooManyRequestsBody : string :=
  "{" ++ dquote ++ "error" ++ dquote ++ ":" ++ dquote ++ "too many requests" ++ dquote ++ "}".

(** HTTP 429 with that body, parsed. *)
Definition response429 : Response :=
  {| resp_StatusCode := 429;
     resp_Error := Some {| ErrorField := "too many requests" |};
     resp_Body := tooManyRequestsBody |}.

(** HTTP 500 with a body that is not JSON: no error object. *)
Definition response500 : Response :=
  {| resp_StatusCode := 500;
     resp_Error := None;
     resp_Body := "<html>oops</html>" |}.

(** HTTP 404 without a body. *)
Definition response404 : Response :=
  {| resp_StatusCode := 404; resp_Error := None; resp_Body := "" |}.

(** HTTP 401 and 422, each with a message of the service in the body. *)
Definition response401 : Response :=
  {| resp_StatusCode := 401;
     resp_Error := Some {| ErrorField := "key revoked" |};
     resp_Body := "" |}.

Definition response422 : Response :=
  {| resp_StatusCode := 422;
     resp_Error := Some {| ErrorField := "ids is required" |};
     resp_Body := "" |}.

(** The client [NewClient] builds from the key [ss_live_abc123] alone. *)
Definition sampleClient : Client :=
  {| config :=
       {| APIKey := "ss_live_abc123";
          BaseURL := "https://api.shopsavvy.com/v1";
          Timeout := 30 * Second |};
     client :=
       {| rc_BaseURL := "https://api.shopsavvy.com/v1";
          rc_Timeout := 30 * Second;
          rc_Header :=
            <["User-Agent" := "ShopSavvy-Go-SDK/" ++ Version]>
              (<["Content-Type" := "application/json"]>
                 (<["Authorization" := "Bearer " ++ "ss_live_abc123"]> ∅));
          rc_AfterResponse := fun resp =>
            if IsError resp then Some (handleErrorResponse resp) else None |} |}.

(** A network on which every request runs into its deadline. *)
Definition slowTransport : list Request -> Request -> Outcome :=
  fun _ _ => TransportFailed DeadlineExceeded.

(** A network on which no connection can be made. *)
Definition downTransport : list Request -> Request -> Outcome :=
  fun _ _ => TransportFailed (NoResponse "dial tcp: connection refused").

(** A result variable that no body can fill; the runs below never reach it. *)
Definition noResult (Res : Type) : Unmarshal Res := fun _ => inl "unexpected end of JSON input".

(** A client that came out of [NewClient]. *)
Definition builtByNewClient (c : Client) : Prop :=
  exists (apiKey : string) (options : list Option) (log : list Request),
    NewClient apiKey options log = (inr c, log).

(** ** The remaining methods of the package *)

(** [func (c *Client) Close()]: the body is empty. *)
Definition Close (c : Client) : M unit := ret tt.

(** [func (r *ProductSearchResult) CreditsUsed() int] *)
Definition ProductSearchResult_CreditsUsed (r : ProductSearchResult) : Z :=
  match psr_Meta r with
  | Some m => meta_CreditsUsed m
  | None => 0
  end.

(** [func (r *ProductSearchResult) CreditsRemaining() int] *)
Definition ProductSearchResult_CreditsRemaining (r : ProductSearchResult) : Z :=
  match psr_Meta r with
  | Some m => meta_CreditsRemaining m
  | None => 0
  end.

(** The deprecated aliases of [ProductDetails]. *)
Definition Name (p : ProductDetails) : string := pd_Title p.
Definition ProductID (p : ProductDetails) : string := pd_ShopSavvy p.
Definition ASIN (p : ProductDetails) : option string := pd_Amazon p.

(** [ImageURL]: a pointer to the first image, [nil] without images. *)
Definition ImageURL (p : ProductDetails) : option string :=
  match pd_Images p with
  | first :: _ => Some first
  | [] => None
  end.

(** The deprecated aliases of [Offer]. *)
Definition OfferID (o : Offer) : string := of_ID o.
Definition OfferURL (o : Offer) : option string := of_URL o.
Definition LastUpdated (o : Offer) : option string := of_Timestamp o.

(** The deprecated accessors of [UsageInfo]. *)
Definition GetCreditsUsed (u : UsageInfo) : Z := up_CreditsUsed (ui_CurrentPeriod u).
Definition GetCreditsRemaining (u : UsageInfo) : Z := up_CreditsRemaining (ui_CurrentPeriod u).
Definition GetCreditsTotal (u : UsageInfo) : Z := up_CreditsLimit (ui_CurrentPeriod u).
Definition GetBillingPeriodStart (u : UsageInfo) : string := up_StartDate (ui_CurrentPeriod u).
Definition GetBillingPeriodEnd (u : UsageInfo) : string := up_EndDate (ui_CurrentPeriod u).

(** ** Further notions the properties are stated with *)

(** The configuration [NewClient] checks and keeps: the defaults, with the
    options run over them in the order given. *)
Definition effectiveConfig (apiKey : string) (options : list Option) : Config :=
  fold_left (fun c option => option c) options
    {| APIKey := apiKey;
       BaseURL := "https://api.shopsavvy.com/v1";
       Timeout := 30 * Second |}.

(** The two options of the package, named by their argument. *)
Definition sdkOption (o : string + Z) : Option :=
  match o with
  | inl baseURL => WithBaseURL baseURL
  | inr timeout => WithTimeout timeout
  end.

Definition baseURLsOf (os : list (string + Z)) : list string :=
  omap (fun o => match o with inl u => Some u | inr _ => None end) os.

Definition timeoutsOf (os : list (string + Z)) : list Z :=
  omap (fun o => match o with inl _ => None | inr t => Some t end) os.

(** An option a caller can write, [Option] being an exported function type
    and [APIKey] an exported field: it replaces the key. *)
Definition setAPIKey (key : string) : Option :=
  fun c => {| APIKey := key; BaseURL := BaseURL c; Timeout := Timeout c |}.

(** The three headers [NewClient] sets. *)
Definition clientHeaders (key : string) : gmap string string :=
  <["User-Agent" := "ShopSavvy-Go-SDK/1.0.1"]>
    (<["Content-Type" := "application/json"]>
       (<["Authorization" := "Bearer " ++ key]> ∅)).

(** A character a key may hold at all: a letter, a digit or the underscore. *)
Definition keyChar (c : ascii) : bool := isAlnum c || Ascii.eqb c "_"%char.

(** The text cut at every occurrence of a separator character, as the
    receiver of a joined parameter reads it. *)
Fixpoint splitOn (sep : ascii) (s : string) : list string :=
  match s with
  | EmptyString => [""]
  | String c rest =>
      if Ascii.eqb c sep then "" :: splitOn sep rest
      else match splitOn sep rest with
           | field :: fields => String c field :: fields
           | [] => [String c ""]
           end
  end.

(** A text without the character. *)
Definition freeOf (c : ascii) (s : string) : Prop :=
  Forall (fun x => x <> c) (list_ascii_of_string s).

(** An error of one of the seven struct types of the package. *)
Definition typedError (e : error) : Prop :=
  match e with
  | ErrorString _ | TransportError _ | UnmarshalError _ => False
  | _ => True
  end.

(** What a caller sees of a call besides the value: the error, if any, and
    the log of requests afterwards. *)
Definition outcome {A} (x : (error + A) * list Request) : option error * list Request :=
  (match fst x with inl e => Some e | inr _ => None end, snd x).

Section Calls.

Variable transport : list Request -> Request -> Outcome.
Context {U1 : Unmarshal ProductSearchResult}
        {U2 : Unmarshal (APIResponse (list ProductDetails))}
        {U3 : Unmarshal (APIResponse (list ProductWithOffers))}
        {U4 : Unmarshal (APIResponse (list OfferWithHistory))}
        {U5 : Unmarshal (APIResponse ScheduleResponse)}
        {U6 : Unmarshal (APIResponse (list ScheduleBatchResponse))}
        {U7 : Unmarshal (APIResponse (list ScheduledProduct))}
        {U8 : Unmarshal (APIResponse RemoveResponse)}
        {U9 : Unmarshal (APIResponse (list RemoveBatchResponse))}
        {U10 : Unmarshal (APIResponse UsageInfo)}.

(** The outcome of a call of any of the twelve endpoint methods, with any
    arguments, on client [c] when the log is [log]. *)
Inductive endpointCall (c : Client) (log : list Request)
  : option error * list Request -> Prop :=
| call_SearchProducts query limit offset :
    endpointCall c log (outcome (SearchProducts transport c query limit offset log))
| call_GetProductDetails identifier format :
    endpointCall c log (outcome (GetProductDetails transport c identifier format log))
| call_GetProductDetailsBatch identifiers format :
    endpointCall c log (outcome (GetProductDetailsBatch transport c identifiers format log))
| call_GetCurrentOffers identifier retailer format :
    endpointCall c log (outcome (GetCurrentOffers transport c identifier retailer format log))
| call_GetCurrentOffersBatch identifiers retailer format :
    endpointCall c log
      (outcome (GetCurrentOffersBatch transport c identifiers retailer format log))
| call_GetPriceHistory identifier startDate endDate retailer format :
    endpointCall c log
      (outcome (GetPriceHistory transport c identifier startDate endDate retailer format log))
| call_ScheduleProductMonitoring identifier frequency retailer :
    endpointCall c log
      (outcome (ScheduleProductMonitoring transport c identifier frequency retailer log))
| call_ScheduleProductMonitoringBatch identifiers frequency retailer :
    endpointCall c log
      (outcome (ScheduleProductMonitoringBatch transport c identifiers frequency retailer log))
| call_GetScheduledProducts :
    endpointCall c log (outcome (GetScheduledProducts transport c log))
| call_RemoveProductFromSchedule identifier :
    endpointCall c log (outcome (RemoveProductFromSchedule transport c identifier log))
| call_RemoveProductsFromSchedule identifiers :
    endpointCall c log (outcome (RemoveProductsFromSchedule transport c identifiers log))
| call_GetUsage :
    endpointCall c log (outcome (GetUsage transport c log)).

End Calls.

(** The endpoints of the service: method and path. *)
Definition endpoints : list (HTTPMethod * string) :=
  [ (GET, "/products/search"); (GET, "/products"); (GET, "/products/offers");
    (GET, "/products/offers/history"); (POST, "/products/schedule");
    (GET, "/products/scheduled"); (DELETE, "/products/schedule"); (GET, "/usage") ].

(** A network that answers every request with the same response. *)
Definition answering (resp : Response) : list Request -> Request -> Outcome :=
  fun _ _ => Responded resp.

(** The two shapes of request the endpoint methods build: a [GET] with query
    parameters and no body, and a request with a body and no query
    parameter.  Both inherit base URL and headers from the client. *)
Definition queryRequest (c : Client) (path : string) (params : gmap string string)
  : Request :=
  {| req_Method := GET;
     req_BaseURL := rc_BaseURL (client c);
     req_Path := path;
     req_Header := rc_Header (client c);
     req_QueryParam := params;
     req_Body := None |}.

Definition bodyRequest (c : Client) (m : HTTPMethod) (path : string)
    (body : gmap string string) : Request :=
  {| req_Method := m;
     req_BaseURL := rc_BaseURL (client c);
     req_Path := path;
     req_Header := rc_Header (client c);
     req_QueryParam := ∅;
     req_Body := Some body |}.

(** A run that appends one [GET] request for [path] to the log, with query
    parameters of which [P] holds; and one that appends a request with
    method [m] for [path], with a body of which [P] holds. *)
Definition sendsQuery {A} (x : A * list Request) (log : list Request) (c : Client)
    (path : string) (P : gmap string string -> Prop) : Prop :=
  exists params : gmap string string,
    snd x = (log ++ [queryRequest c path params])%list /\ P params.

Definition sendsBody {A} (x : A * list Request) (log : list Request) (c : Client)
    (m : HTTPMethod) (path : string) (P : gmap string string -> Prop) : Prop :=
  exists body : gmap string string,
    snd x = (log ++ [bodyRequest c m path body])%list /\ P body.

(** The variadic argument starts with the non-empty value [f]. *)
Definition leadsWith (v : list string) (f : string) : Prop :=
  f <> "" /\ exists rest : list string, v = f :: rest.

(** HTTP 200, and a result variable filled with an empty list of scheduled
    products. *)
Definition response200 : Response :=
  {| resp_StatusCode := 200; resp_Error := None; resp_Body := "{}" |}.

Definition noScheduled : Unmarshal (APIResponse (list ScheduledProduct)) :=
  fun _ => inr {| Success := true; Data := []; ResponseMessage := ""; Meta := None |}.

(** A run of [k] slashes. *)
Definition slashes (k : nat) : string := string_of_list_ascii (repeat "/"%char k).

(** HTTP 304, which Go's HTTP client returns as it is. *)
Definition response304 : Response :=
  {| resp_StatusCode := 304; resp_Error := None; resp_Body := "" |}.

(** * Properties *)

(** ** The derivative matcher decides the language *)

Module RegexpFacts.
Import Regexp.

Lemma nullable_spec (r : regex) : nullable r = true <-> Matches r [].
Proof.
  split.
  - induction r; simpl; intros Hn; try discriminate.
    + constructor.
    + apply andb_true_iff in Hn as [H1 H2].
      change (@nil ascii) with (@nil ascii ++ [])%list. constructor; auto.
    + apply orb_true_iff in Hn as [H1 | H2]; [apply MAltL | apply MAltR]; auto.
    + constructor.
  - induction r; simpl; intros Hm; inversion Hm; subst; auto.
    + match goal with E : (_ ++ _)%list = [] |- _ => apply app_eq_nil in E as [-> ->] end.
      rewrite IHr1, IHr2; auto.
    + rewrite IHr1; auto.
    + rewrite IHr2; auto with bool.
Qed.

Lemma star_cons_inv (r : regex) (a : ascii) (s : list ascii) :
  Matches (Star r) (a :: s) ->
  exists s1 s2, s = (s1 ++ s2)%list /\ Matches r (a :: s1) /\ Matches (Star r) s2.
Proof.
  intros Hm. remember (Star r) as r' eqn:Er. remember (a :: s) as t eqn:Et.
  revert s Et. induction Hm; intros u Et; try discriminate.
  injection Er as ->.
  destruct s1 as [| b s1'].
  - simpl in Et. apply IHHm2; auto.
  - simpl in Et. injection Et as -> <-. exists s1', s2. auto.
Qed.

Lemma deriv_spec (a : ascii) (r : regex) :
  forall s, Matches (deriv a r) s <-> Matches r (a :: s).
Proof.
  induction r; intros s; simpl.
  - split; intros Hm; inversion Hm.
  - split; intros Hm; inversion Hm.
  - destruct (Ascii.eqb_spec a c) as [-> | Hne]; split; intros Hm; inversion Hm; subst.
    + constructor.
    + constructor.
    + contradiction.
  - destruct (p a) eqn:Ep; split; intros Hm; inversion Hm; subst.
    + constructor; auto.
    + constructor.
    + congruence.
  - destruct (nullable r1) eqn:En; split; intros Hm.
    + inversion Hm; subst.
      * match goal with Hc : Matches (Cat _ _) _ |- _ => inversion Hc; subst end.
        change (a :: (s1 ++ s2)%list) with ((a :: s1) ++ s2)%list.
        constructor; auto. apply IHr1; auto.
      * change (a :: s) with ([] ++ a :: s)%list.
        constructor; [apply nullable_spec; auto | apply IHr2; auto].
    + inversion Hm; subst. destruct s1 as [| b s1']; simpl in *.
      * subst. apply MAltR. apply IHr2; auto.
      * match goal with E : _ :: _ = _ :: _ |- _ => injection E as -> <- end.
        apply MAltL. constructor; auto. apply IHr1; auto.
    + inversion Hm; subst.
      change (a :: (s1 ++ s2)%list) with ((a :: s1) ++ s2)%list.
      constructor; auto. apply IHr1; auto.
    + inversion Hm; subst. destruct s1 as [| b s1']; simpl in *.
      * match goal with Hn : Matches r1 [] |- _ => apply nullable_spec in Hn end.
        congruence.
      * match goal with E : _ :: _ = _ :: _ |- _ => injection E as -> <- end.
        constructor; auto. apply IHr1; auto.
  - split; intros Hm; inversion Hm; subst.
    + apply MAltL, IHr1; auto.
    + apply MAltR, IHr2; auto.
    + apply MAltL, IHr1; auto.
    + apply MAltR, IHr2; auto.
  - split; intros Hm.
    + inversion Hm; subst.
      change (a :: (s1 ++ s2)%list) with ((a :: s1) ++ s2)%list.
      constructor; auto. apply IHr; auto.
    + apply star_cons_inv in Hm as (s1 & s2 & -> & H1 & H2).
      constructor; auto. apply IHr; auto.
Qed.

Lemma fullmatch_spec (r : regex) (s : list ascii) :
  fullmatch r s = true <-> Matches r s.
Proof.
  revert r. induction s as [| a s IH]; intros r; simpl.
  - apply nullable_spec.
  - rewrite IH. apply deriv_spec.
Qed.

Lemma Matches_Word (w s : list ascii) : Matches (Word w) s <-> s = w.
Proof.
  revert s. induction w as [| c w IH]; intros s; simpl; split; intros Hm.
  - inversion Hm; auto.
  - subst. constructor.
  - inversion Hm; subst.
    match goal with Hl : Matches (Lit _) _ |- _ => inversion Hl; subst end.
    simpl. f_equal. apply IH; auto.
  - subst. change (c :: w) with ([c] ++ w)%list. constructor; [constructor | apply IH; auto].
Qed.

Lemma Matches_Star_Class (p : ascii -> bool) (s : list ascii) :
  Matches (Star (Class p)) s <-> forallb p s = true.
Proof.
  split.
  - intros Hm. remember (Star (Class p)) as r eqn:Er.
    induction Hm; try discriminate; auto.
    injection Er as ->. inversion Hm1; subst. simpl.
    apply andb_true_iff; auto.
  - induction s as [| c s IH]; simpl; intros Hp.
    + constructor.
    + apply andb_true_iff in Hp as [Hc Hs].
      change (c :: s) with ([c] ++ s)%list. constructor; [constructor | ]; auto.
Qed.

Lemma Matches_Plus_Class (p : ascii -> bool) (s : list ascii) :
  Matches (Plus (Class p)) s <-> s <> [] /\ forallb p s = true.
Proof.
  unfold Plus. split.
  - intros Hm. inversion Hm; subst.
    match goal with Hc : Matches (Class _) _ |- _ => inversion Hc; subst end.
    split; [discriminate |]. simpl. apply andb_true_iff. split; auto.
    apply Matches_Star_Class; auto.
  - intros [Hne Hp]. destruct s as [| c s]; [contradiction |].
    simpl in Hp. apply andb_true_iff in Hp as [Hc Hs].
    change (c :: s) with ([c] ++ s)%list.
    constructor; [constructor; auto | apply Matches_Star_Class; auto].
Qed.

End RegexpFacts.

(** ** Strings *)

Lemma append_cons (x : ascii) (a b : string) : String x a ++ b = String x (a ++ b).
Proof. reflexivity. Qed.

Lemma append_nil_l (b : string) : "" ++ b = b.
Proof. reflexivity. Qed.

Lemma append_nil_r (a : string) : a ++ "" = a.
Proof.
  induction a as [| x a IH]; [reflexivity |]. now rewrite append_cons, IH.
Qed.

Lemma append_assoc (a b c : string) : (a ++ b) ++ c = a ++ (b ++ c).
Proof.
  induction a as [| x a IH]; [reflexivity |]. now rewrite !append_cons, IH.
Qed.

Lemma list_ascii_of_string_app (a b : string) :
  list_ascii_of_string (a ++ b) = (list_ascii_of_string a ++ list_ascii_of_string b)%list.
Proof.
  induction a as [| x a IH]; [reflexivity |].
  rewrite append_cons. simpl. now rewrite IH.
Qed.

Lemma string_of_list_ascii_app (u v : list ascii) :
  string_of_list_ascii (u ++ v)%list = string_of_list_ascii u ++ string_of_list_ascii v.
Proof.
  induction u as [| x u IH]; [reflexivity |].
  simpl. now rewrite append_cons, IH.
Qed.

Lemma list_ascii_of_string_nil (s : string) : list_ascii_of_string s = [] <-> s = "".
Proof. destruct s; simpl; split; intros E; congruence. Qed.

(** ** The key pattern accepts exactly the well-formed keys *)

Lemma MatchString_apiKeyPattern (key : string) :
  MatchString apiKeyPattern key = true <-> wellFormedKey key.
Proof.
  unfold MatchString, apiKeyPattern, wellFormedKey.
  rewrite RegexpFacts.fullmatch_spec. split.
  - intros Hm.
    inversion Hm as [| | | ? ? p1 t1 Hp Ht E1 E2 | | | |]; subst.
    inversion Ht as [| | | ? ? p2 t2 He Ht2 E3 E4 | | | |]; subst.
    inversion Ht2 as [| | | ? ? p3 t3 Hu Hs E5 E6 | | | |]; subst.
    apply (RegexpFacts.Matches_Word (list_ascii_of_string "ss_")) in Hp.
    inversion Hu; subst.
    apply RegexpFacts.Matches_Plus_Class in Hs as [Hne Hall].
    exists (string_of_list_ascii p2), (string_of_list_ascii t3).
    repeat split.
    + rewrite <- (string_of_list_ascii_of_string key).
      match goal with E : _ = list_ascii_of_string key |- _ => rewrite <- E end.
      rewrite !string_of_list_ascii_app. reflexivity.
    + inversion He as [| | | | ? ? ? Hw | ? ? ? Hw | |]; subst.
      * apply (RegexpFacts.Matches_Word (list_ascii_of_string "live")) in Hw.
        subst. auto.
      * apply (RegexpFacts.Matches_Word (list_ascii_of_string "test")) in Hw.
        subst. auto.
    + intros E. apply Hne. rewrite <- (list_ascii_of_string_of_list_ascii t3), E. reflexivity.
    + rewrite list_ascii_of_string_of_list_ascii. apply Forall_forall.
      rewrite forallb_forall in Hall. intros x Hx. apply Hall.
      apply list_elem_of_In; auto.
  - intros (env & suffix & -> & Henv & Hne & Hall).
    rewrite !list_ascii_of_string_app.
    constructor; [apply RegexpFacts.Matches_Word; reflexivity |].
    constructor.
    + destruct Henv as [-> | ->]; [apply Regexp.MAltL | apply Regexp.MAltR];
        apply RegexpFacts.Matches_Word; reflexivity.
    + change (list_ascii_of_string "_") with ["_"%char].
      constructor; [constructor |].
      apply RegexpFacts.Matches_Plus_Class. split.
      * rewrite list_ascii_of_string_nil. auto.
      * apply forallb_forall. rewrite Forall_forall in Hall.
        intros x Hx. apply Hall. apply list_elem_of_In; auto.
Qed.

(** ** Client construction *)

Lemma WithBaseURL_keepsAPIKey (baseURL : string) : keepsAPIKey (WithBaseURL baseURL).
Proof. intros c. reflexivity. Qed.

Lemma WithTimeout_keepsAPIKey (timeout : Z) : keepsAPIKey (WithTimeout timeout).
Proof. intros c. reflexivity. Qed.

Lemma options_keep_APIKey (options : list Option) (c : Config) :
  Forall keepsAPIKey options ->
  APIKey (fold_left (fun c option => option c) options c) = APIKey c.
Proof.
  intros Hall. revert c.
  induction Hall as [| o options Ho _ IH]; intros c; simpl; [reflexivity |].
  rewrite IH. apply Ho.
Qed.

Lemma wellFormedKey_nonempty (key : string) : wellFormedKey key -> key <> "".
Proof. intros (env & suffix & -> & _). discriminate. Qed.

(** [NewClient] touches the log of requests in no branch. *)
Lemma NewClient_sends_nothing (apiKey : string) (options : list Option) (log : list Request) :
  snd (NewClient apiKey options log) = log.
Proof.
  unfold NewClient.
  destruct (String.eqb _ ""); [reflexivity |].
  destruct (negb _); reflexivity.
Qed.

(** C5.  A key that is not of the form [ss_(live|test)_<alphanumeric>]
    (empty, wrong prefix, wrong separator, ...) makes [NewClient] fail with
    the error of [fmt.Errorf], a plain configuration error and none of the
    package's typed errors, and the log of outbound requests is left as it
    was: nothing is sent.  The options are any that leave the key alone, as
    [WithBaseURL] and [WithTimeout] do. *)
Theorem NewClient_malformed_key (apiKey : string) (options : list Option)
    (log : list Request) :
  Forall keepsAPIKey options ->
  ~ wellFormedKey apiKey ->
  NewClient apiKey options log =
    (inl (ErrorString
            (if String.eqb apiKey ""
             then "API key is required. Get one at https://shopsavvy.com/data"
             else "invalid API key format. API keys should start with ss_live_ or ss_test_")),
     log).
Proof.
  intros Hopts Hbad. unfold NewClient.
  pose proof (options_keep_APIKey options
    {| APIKey := apiKey; BaseURL := "https://api.shopsavvy.com/v1";
       Timeout := 30 * Second |} Hopts) as Hkey.
  simpl in Hkey. rewrite Hkey.
  destruct (String.eqb apiKey ""); [reflexivity |].
  destruct (MatchString apiKeyPattern apiKey) eqn:Em; [| reflexivity].
  exfalso. apply Hbad. apply MatchString_apiKeyPattern. exact Em.
Qed.

Lemma NewClient_malformed_key_witness :
  NewClient "ss-live-abc123" [WithTimeout (60 * Second)] [] =
    (inl (ErrorString
            "invalid API key format. API keys should start with ss_live_ or ss_test_"),
     []).
Proof.
  apply (NewClient_malformed_key "ss-live-abc123" [WithTimeout (60 * Second)] []).
  - repeat constructor.
  - intros Hw. apply MatchString_apiKeyPattern in Hw. vm_compute in Hw. discriminate Hw.
Defined.

(** C6.  A key [ss_live_<suffix>] or [ss_test_<suffix>] with a non-empty
    alphanumeric suffix makes [NewClient] succeed, and the client it returns
    is ready for use: its configuration is the defaults with the options
    run over them and holds the key; its HTTP client has the base URL of
    the configuration without trailing slashes, the timeout of the
    configuration, the three headers (bearer token made of the key, JSON
    content type, user agent of the SDK) and the hook that turns every
    error response into the error [handleErrorResponse] makes of it.
    [NewClient] sends nothing itself.  The options are any that leave the
    key alone. *)
Theorem NewClient_well_formed_key (apiKey : string) (options : list Option)
    (log : list Request) :
  Forall keepsAPIKey options ->
  wellFormedKey apiKey ->
  exists c : Client,
    NewClient apiKey options log = (inr c, log) /\
    config c = effectiveConfig apiKey options /\
    APIKey (config c) = apiKey /\
    rc_BaseURL (client c) = TrimRight (BaseURL (config c)) "/" /\
    rc_Timeout (client c) = Timeout (config c) /\
    rc_Header (client c) = clientHeaders apiKey /\
    rc_Header (client c) !! "Authorization" = Some ("Bearer " ++ apiKey) /\
    (forall resp : Response,
       rc_AfterResponse (client c) resp =
         if IsError resp then Some (handleErrorResponse resp) else None).
Proof.
  intros Hopts Hok. unfold NewClient.
  pose proof (options_keep_APIKey options
    {| APIKey := apiKey; BaseURL := "https://api.shopsavvy.com/v1";
       Timeout := 30 * Second |} Hopts) as Hkey.
  simpl in Hkey. rewrite Hkey.
  apply wellFormedKey_nonempty in Hok as Hne.
  apply String.eqb_neq in Hne. rewrite Hne.
  apply MatchString_apiKeyPattern in Hok. rewrite Hok. simpl negb. cbv iota.
  eexists. split; [reflexivity |].
  cbn [config client rc_BaseURL rc_Timeout rc_Header rc_AfterResponse].
  split; [reflexivity |]. split; [exact Hkey |].
  split; [reflexivity |]. split; [reflexivity |]. split; [reflexivity |].
  split; [| intros resp; reflexivity].
  rewrite lookup_insert_ne by discriminate.
  rewrite lookup_insert_ne by discriminate.
  apply lookup_insert_eq.
Qed.

Lemma NewClient_well_formed_key_witness :
  exists c : Client,
    NewClient "ss_test_Ab9" [WithBaseURL "http://localhost:8080/"] [] = (inr c, []) /\
    config c = effectiveConfig "ss_test_Ab9" [WithBaseURL "http://localhost:8080/"] /\
    APIKey (config c) = "ss_test_Ab9" /\
    rc_BaseURL (client c) = TrimRight (BaseURL (config c)) "/" /\
    rc_Timeout (client c) = Timeout (config c) /\
    rc_Header (client c) = clientHeaders "ss_test_Ab9" /\
    rc_Header (client c) !! "Authorization" = Some ("Bearer " ++ "ss_test_Ab9") /\
    (forall resp : Response,
       rc_AfterResponse (client c) resp =
         if IsError resp then Some (handleErrorResponse resp) else None).
Proof.
  apply (NewClient_well_formed_key "ss_test_Ab9" [WithBaseURL "http://localhost:8080/"] []).
  - repeat constructor.
  - apply MatchString_apiKeyPattern. vm_compute. reflexivity.
Defined.

(** The key of the specification's scenario, spelled with the word
    [prefix], is not of the form the pattern accepts: [NewClient] rejects it. *)
Lemma NewClient_prefix_live_abc123_rejected :
  NewClient "prefix_live_abc123" [] [] =
    (inl (ErrorString
            "invalid API key format. API keys should start with ss_live_ or ss_test_"),
     []) /\
  ~ (exists (c : Client) (log' : list Request),
       NewClient "prefix_live_abc123" [] [] = (inr c, log')).
Proof.
  assert (E : NewClient "prefix_live_abc123" [] [] =
    (inl (ErrorString
            "invalid API key format. API keys should start with ss_live_ or ss_test_"),
     [])) by (vm_compute; reflexivity).
  split; [exact E |]. intros (c & log' & Hc). rewrite E in Hc. discriminate Hc.
Qed.

(** C7 (amended).  With the key [ss_live_abc123] and no option, [NewClient]
    succeeds; the base URL of the configuration and of the HTTP client is
    [https://api.shopsavvy.com/v1] and the timeout of both is 30 seconds
    (30 000 000 000 ns). *)
Theorem NewClient_defaults (log : list Request) :
  exists c : Client,
    NewClient "ss_live_abc123" [] log = (inr c, log) /\
    BaseURL (config c) = "https://api.shopsavvy.com/v1" /\
    rc_BaseURL (client c) = "https://api.shopsavvy.com/v1" /\
    Timeout (config c) = 30000000000 /\
    rc_Timeout (client c) = 30000000000.
Proof.
  unfold NewClient. simpl fold_left. simpl APIKey.
  replace (MatchString apiKeyPattern "ss_live_abc123") with true
    by (vm_compute; reflexivity).
  simpl. eexists. split; [reflexivity |]. repeat split.
Qed.

(** ** Error mapping *)

(** The message [handleErrorResponse] computes before it looks at the status. *)
Lemma handleErrorResponse_eq (resp : Response) :
  handleErrorResponse resp =
    let code := resp_StatusCode resp in
    if code =? 401 then AuthenticationError "Authentication failed. Check your API key." code
    else if code =? 404 then NotFoundError "Resource not found" code
    else if code =? 422
      then ValidationError "Request validation failed. Check your parameters." code
    else if code =? 429
      then RateLimitError "Rate limit exceeded. Please slow down your requests." code
    else APIError
           (match resp_Error resp with
            | Some errorResp =>
                if negb (String.eqb (ErrorField errorResp) "")
                then ErrorField errorResp
                else fallbackMessage code
            | None => fallbackMessage code
            end) code.
Proof.
  unfold handleErrorResponse, fallbackMessage.
  destruct (resp_StatusCode resp) as [| p | p]; try reflexivity.
  do 9 (try (destruct p as [p | p |]; try reflexivity)).
Qed.

Lemma handleErrorResponse_other (resp : Response) :
  otherStatus (resp_StatusCode resp) ->
  handleErrorResponse resp =
    APIError
      (match resp_Error resp with
       | Some errorResp =>
           if negb (String.eqb (ErrorField errorResp) "")
           then ErrorField errorResp
           else fallbackMessage (resp_StatusCode resp)
       | None => fallbackMessage (resp_StatusCode resp)
       end) (resp_StatusCode resp).
Proof.
  intros (H1 & H2 & H3 & H4). rewrite handleErrorResponse_eq. cbv zeta.
  apply Z.eqb_neq in H1, H2, H3, H4. rewrite H1, H2, H3, H4. reflexivity.
Qed.

(** C1.  The kind of the error follows the status code: 401 gives an
    authentication error, 404 a not-found error, 422 a validation error, 429
    a rate-limit error and every other status a generic API error; the
    error carries the status code, and its kind is one of these five. *)
Theorem handleErrorResponse_kind (resp : Response) :
  let e := handleErrorResponse resp in
  (resp_StatusCode resp = 401 -> kind e = KAuthentication) /\
  (resp_StatusCode resp = 404 -> kind e = KNotFound) /\
  (resp_StatusCode resp = 422 -> kind e = KValidation) /\
  (resp_StatusCode resp = 429 -> kind e = KRateLimit) /\
  (otherStatus (resp_StatusCode resp) -> kind e = KAPI) /\
  StatusCode e = Some (resp_StatusCode resp) /\
  In (kind e) [KAuthentication; KNotFound; KValidation; KRateLimit; KAPI].
Proof.
  cbv zeta. rewrite handleErrorResponse_eq. cbv zeta.
  destruct (Z.eqb_spec (resp_StatusCode resp) 401) as [E1 | N1];
    [| destruct (Z.eqb_spec (resp_StatusCode resp) 404) as [E2 | N2];
       [| destruct (Z.eqb_spec (resp_StatusCode resp) 422) as [E3 | N3];
          [| destruct (Z.eqb_spec (resp_StatusCode resp) 429) as [E4 | N4]]]];
    simpl; repeat split; auto;
    try (intros Hc; unfold otherStatus in *; first [congruence | tauto | lia]);
    try tauto.
Qed.

Lemma handleErrorResponse_kind_witness :
  kind (handleErrorResponse response401) = KAuthentication /\
  kind (handleErrorResponse response404) = KNotFound /\
  kind (handleErrorResponse response422) = KValidation /\
  kind (handleErrorResponse response429) = KRateLimit /\
  kind (handleErrorResponse response500) = KAPI /\
  StatusCode (handleErrorResponse response500) = Some 500.
Proof.
  split; [| split; [| split; [| split; [| split]]]].
  - apply (handleErrorResponse_kind response401). reflexivity.
  - apply (handleErrorResponse_kind response404). reflexivity.
  - apply (handleErrorResponse_kind response422). reflexivity.
  - apply (handleErrorResponse_kind response429). reflexivity.
  - apply (handleErrorResponse_kind response500). unfold otherStatus. simpl. lia.
  - apply (handleErrorResponse_kind response500).
Defined.

(** The scenario of the specification as the code runs it: HTTP 429 with
    the body [{"error":"too many requests"}] gives a rate-limit error, but
    its message is the fixed text of the [case 429] branch, not the [error]
    field of the body. *)
Lemma handleErrorResponse_429_ignores_body :
  resp_Error response429 = Some {| ErrorField := "too many requests" |} /\
  handleErrorResponse response429 =
    RateLimitError "Rate limit exceeded. Please slow down your requests." 429 /\
  Message (handleErrorResponse response429) <> Some "too many requests".
Proof.
  split; [reflexivity |]. split; [reflexivity |]. simpl. discriminate.
Qed.

(** At 401, 404, 422 and 429 the error is fixed by the status alone. *)
Lemma handleErrorResponse_fixed (resp : Response) :
  (resp_StatusCode resp = 401 ->
   handleErrorResponse resp
     = AuthenticationError "Authentication failed. Check your API key." 401) /\
  (resp_StatusCode resp = 404 ->
   handleErrorResponse resp = NotFoundError "Resource not found" 404) /\
  (resp_StatusCode resp = 422 ->
   handleErrorResponse resp
     = ValidationError "Request validation failed. Check your parameters." 422) /\
  (resp_StatusCode resp = 429 ->
   handleErrorResponse resp
     = RateLimitError "Rate limit exceeded. Please slow down your requests." 429).
Proof.
  repeat split; intros Hc; rewrite handleErrorResponse_eq, Hc; reflexivity.
Qed.

(** C2 (amended).  When the parsed error body carries a non-empty [error]
    field, the message of a generic API error (every status but 401, 404,
    422 and 429) is the value of that field.  At 401, 404, 422 and 429 the
    message is the fixed text of the kind, whatever the body carries:
    a message, an empty message or no error object at all. *)
Theorem handleErrorResponse_message (resp : Response) :
  let e := handleErrorResponse resp in
  (forall errorResp : APIErrorResponse,
     resp_Error resp = Some errorResp ->
     ErrorField errorResp <> "" ->
     otherStatus (resp_StatusCode resp) ->
     e = APIError (ErrorField errorResp) (resp_StatusCode resp)) /\
  (resp_StatusCode resp = 401 ->
     e = AuthenticationError "Authentication failed. Check your API key." 401) /\
  (resp_StatusCode resp = 404 -> e = NotFoundError "Resource not found" 404) /\
  (resp_StatusCode resp = 422 ->
     e = ValidationError "Request validation failed. Check your parameters." 422) /\
  (resp_StatusCode resp = 429 ->
     e = RateLimitError "Rate limit exceeded. Please slow down your requests." 429).
Proof.
  cbv zeta. split; [| apply handleErrorResponse_fixed].
  intros errorResp Hbody Hne Ho.
  rewrite (handleErrorResponse_other resp Ho), Hbody.
  apply String.eqb_neq in Hne. rewrite Hne. reflexivity.
Qed.

Lemma handleErrorResponse_message_witness :
  handleErrorResponse
    {| resp_StatusCode := 503;
       resp_Error := Some {| ErrorField := "maintenance window" |};
       resp_Body := tooManyRequestsBody |}
    = APIError "maintenance window" 503 /\
  handleErrorResponse
    {| resp_StatusCode := 401; resp_Error := None; resp_Body := "" |}
    = AuthenticationError "Authentication failed. Check your API key." 401 /\
  handleErrorResponse response404 = NotFoundError "Resource not found" 404 /\
  handleErrorResponse
    {| resp_StatusCode := 422;
       resp_Error := Some {| ErrorField := "" |};
       resp_Body := "{}" |}
    = ValidationError "Request validation failed. Check your parameters." 422 /\
  handleErrorResponse response429
    = RateLimitError "Rate limit exceeded. Please slow down your requests." 429.
Proof.
  split; [| split; [| split; [| split]]].
  - apply (proj1 (handleErrorResponse_message
             {| resp_StatusCode := 503;
                resp_Error := Some {| ErrorField := "maintenance window" |};
                resp_Body := tooManyRequestsBody |})
             {| ErrorField := "maintenance window" |}).
    + reflexivity.
    + simpl. discriminate.
    + unfold otherStatus. simpl. lia.
  - apply (handleErrorResponse_message
             {| resp_StatusCode := 401; resp_Error := None; resp_Body := "" |}).
    reflexivity.
  - apply (handleErrorResponse_message response404). reflexivity.
  - apply (handleErrorResponse_message
             {| resp_StatusCode := 422;
                resp_Error := Some {| ErrorField := "" |};
                resp_Body := "{}" |}).
    reflexivity.
  - apply (handleErrorResponse_message response429). reflexivity.
Defined.

(** HTTP 404 without a body: the message is the fixed text of the
    [case 404] branch, not the fallback [HTTP 404: Not Found]. *)
Lemma handleErrorResponse_404_no_fallback :
  resp_Error response404 = None /\
  fallbackMessage 404 = "HTTP 404: Not Found" /\
  handleErrorResponse response404 = NotFoundError "Resource not found" 404 /\
  Message (handleErrorResponse response404) <> Some (fallbackMessage 404).
Proof.
  split; [reflexivity |]. split; [vm_compute; reflexivity |].
  split; [reflexivity |]. vm_compute. discriminate.
Qed.

(** C3 (amended).  When the error body is absent or gives no message (no
    error object, or one whose [error] field is empty), the message of a
    generic API error (every status but 401, 404, 422 and 429) is the
    fallback [HTTP <code>: <reason phrase>] built from the status code; HTTP
    500 with an unparsable body gives a generic API error whose message is
    [HTTP 500: Internal Server Error].  At 401, 404, 422 and 429 the
    message is the fixed text of the kind, never the fallback. *)
Theorem handleErrorResponse_fallback (resp : Response) :
  ((forall errorResp, resp_Error resp = Some errorResp -> ErrorField errorResp = "") ->
   otherStatus (resp_StatusCode resp) ->
   handleErrorResponse resp =
     APIError ("HTTP " ++ fmt_d (resp_StatusCode resp) ++ ": "
                 ++ StatusText (resp_StatusCode resp))
              (resp_StatusCode resp)) /\
  (resp_StatusCode resp = 401 ->
   Message (handleErrorResponse resp) = Some "Authentication failed. Check your API key.") /\
  (resp_StatusCode resp = 404 ->
   Message (handleErrorResponse resp) = Some "Resource not found") /\
  (resp_StatusCode resp = 422 ->
   Message (handleErrorResponse resp)
     = Some "Request validation failed. Check your parameters.") /\
  (resp_StatusCode resp = 429 ->
   Message (handleErrorResponse resp)
     = Some "Rate limit exceeded. Please slow down your requests.").
Proof.
  destruct (handleErrorResponse_fixed resp) as (F1 & F2 & F3 & F4).
  split; [| split; [| split; [| split]]].
  - intros Hbody Ho. rewrite (handleErrorResponse_other resp Ho).
    destruct (resp_Error resp) as [errorResp |]; [| reflexivity].
    rewrite (Hbody errorResp eq_refl). reflexivity.
  - intros Hc. now rewrite (F1 Hc).
  - intros Hc. now rewrite (F2 Hc).
  - intros Hc. now rewrite (F3 Hc).
  - intros Hc. now rewrite (F4 Hc).
Qed.

Lemma handleErrorResponse_fallback_witness :
  handleErrorResponse response500 = APIError "HTTP 500: Internal Server Error" 500 /\
  Message (handleErrorResponse
             {| resp_StatusCode := 401; resp_Error := None; resp_Body := "" |})
    = Some "Authentication failed. Check your API key." /\
  Message (handleErrorResponse response404) = Some "Resource not found" /\
  Message (handleErrorResponse
             {| resp_StatusCode := 422; resp_Error := None; resp_Body := "" |})
    = Some "Request validation failed. Check your parameters." /\
  Message (handleErrorResponse
             {| resp_StatusCode := 429; resp_Error := None; resp_Body := "" |})
    = Some "Rate limit exceeded. Please slow down your requests.".
Proof.
  split; [| split; [| split; [| split]]].
  - change (APIError "HTTP 500: Internal Server Error" 500)
      with (APIError ("HTTP " ++ fmt_d (resp_StatusCode response500) ++ ": "
                        ++ StatusText (resp_StatusCode response500))
                     (resp_StatusCode response500)).
    apply (proj1 (handleErrorResponse_fallback response500)).
    + intros errorResp Habs. simpl in Habs. discriminate Habs.
    + unfold otherStatus. simpl. lia.
  - apply (handleErrorResponse_fallback
             {| resp_StatusCode := 401; resp_Error := None; resp_Body := "" |}).
    reflexivity.
  - apply (handleErrorResponse_fallback response404). reflexivity.
  - apply (handleErrorResponse_fallback
             {| resp_StatusCode := 422; resp_Error := None; resp_Body := "" |}).
    reflexivity.
  - apply (handleErrorResponse_fallback
             {| resp_StatusCode := 429; resp_Error := None; resp_Body := "" |}).
    reflexivity.
Defined.

(** ** Response envelope *)

(** C10.  Without [Meta] the accessors [CreditsUsed] and [CreditsRemaining]
    return 0; with [Meta] they return its fields of the same names. *)
Theorem credits_accessors {T : Type} (r : APIResponse T) :
  (Meta r = None -> CreditsUsed r = 0 /\ CreditsRemaining r = 0) /\
  (forall m : APIMeta, Meta r = Some m ->
     CreditsUsed r = meta_CreditsUsed m /\
     CreditsRemaining r = meta_CreditsRemaining m).
Proof.
  unfold CreditsUsed, CreditsRemaining. split.
  - intros ->. split; reflexivity.
  - intros m ->. split; reflexivity.
Qed.

Lemma credits_accessors_witness :
  (CreditsUsed {| Success := true; Data := tt; ResponseMessage := ""; Meta := None |} = 0 /\
   CreditsRemaining {| Success := true; Data := tt; ResponseMessage := ""; Meta := None |} = 0) /\
  (CreditsUsed
     {| Success := true; Data := tt; ResponseMessage := "";
        Meta := Some {| meta_CreditsUsed := 3; meta_CreditsRemaining := 997;
                        meta_RateLimitRemaining := None |} |} = 3 /\
   CreditsRemaining
     {| Success := true; Data := tt; ResponseMessage := "";
        Meta := Some {| meta_CreditsUsed := 3; meta_CreditsRemaining := 997;
                        meta_RateLimitRemaining := None |} |} = 997).
Proof.
  split.
  - apply (credits_accessors
             {| Success := true; Data := tt; ResponseMessage := ""; Meta := None |}).
    reflexivity.
  - apply (proj2 (credits_accessors
             {| Success := true; Data := tt; ResponseMessage := "";
                Meta := Some {| meta_CreditsUsed := 3; meta_CreditsRemaining := 997;
                                meta_RateLimitRemaining := None |} |})
             {| meta_CreditsUsed := 3; meta_CreditsRemaining := 997;
                meta_RateLimitRemaining := None |}).
    reflexivity.
Defined.

(** ** Round trips *)

Lemma sampleClient_builtByNewClient : builtByNewClient sampleClient.
Proof.
  exists "ss_live_abc123", [], []. unfold NewClient. simpl fold_left.
  replace (MatchString apiKeyPattern _) with true by (vm_compute; reflexivity).
  reflexivity.
Qed.

(** The hook of a client that [NewClient] built maps the error responses,
    and only them, through [handleErrorResponse]. *)
Lemma NewClient_hook (c : Client) (resp : Response) :
  builtByNewClient c ->
  rc_AfterResponse (client c) resp =
    if IsError resp then Some (handleErrorResponse resp) else None.
Proof.
  intros (apiKey & options & log & Hnew). unfold NewClient in Hnew.
  destruct (String.eqb _ "") in Hnew; [discriminate Hnew |].
  destruct (negb _) in Hnew; [discriminate Hnew |].
  injection Hnew as <-. reflexivity.
Qed.

Section RoundTrips.

Variable transport : list Request -> Request -> Outcome.
Context {Res : Type} {U : Unmarshal Res}.

(** Every round trip appends its request, and nothing else, to the log. *)
Lemma Execute_log (c : Client) (req : Request) (log : list Request) :
  snd (Execute transport c req log) = (log ++ [req])%list.
Proof.
  unfold Execute. destruct (transport log req) as [fault | resp]; [reflexivity |].
  destruct (rc_AfterResponse (client c) resp); [reflexivity |].
  destruct (SetResult resp); reflexivity.
Qed.

Lemma Execute_transport_failure (c : Client) (req : Request) (log : list Request)
    (fault : TransportFault) :
  transport log req = TransportFailed fault ->
  Execute transport c req log = (inl (TransportError fault), (log ++ [req])%list).
Proof. intros Hf. unfold Execute. rewrite Hf. reflexivity. Qed.

(** A response with a status above 399 is returned as the error
    [handleErrorResponse] makes of it. *)
Lemma Execute_error_response (c : Client) (req : Request) (log : list Request)
    (resp : Response) :
  builtByNewClient c ->
  transport log req = Responded resp ->
  IsError resp = true ->
  Execute transport c req log = (inl (handleErrorResponse resp), (log ++ [req])%list).
Proof.
  intros Hc Hr He. unfold Execute. rewrite Hr, (NewClient_hook c resp Hc), He. reflexivity.
Qed.

Lemma bind_returnResponse (m : M (error + Res)) (log : list Request) :
  bind m returnResponse log = m log.
Proof.
  unfold bind, returnResponse, ret. destruct (m log) as [[err | v] log']; reflexivity.
Qed.

End RoundTrips.

(** ** Transport failures *)

(** A deadline that passes before any response arrives is returned by
    [GetProductDetails] as the error of the HTTP stack, not as a
    [TimeoutError]; a refused connection likewise, not as a [NetworkError]. *)
Lemma GetProductDetails_transport_failure_unmapped :
  (fst (GetProductDetails slowTransport (U2 := noResult _) sampleClient "012345678901" [] [])
     = inl (TransportError DeadlineExceeded) /\
   forall m : string,
     fst (GetProductDetails slowTransport (U2 := noResult _) sampleClient "012345678901" [] [])
       <> inl (TimeoutError m)) /\
  (fst (GetProductDetails downTransport (U2 := noResult _) sampleClient "012345678901" [] [])
     = inl (TransportError (NoResponse "dial tcp: connection refused")) /\
   forall m : string,
     fst (GetProductDetails downTransport (U2 := noResult _) sampleClient "012345678901" [] [])
       <> inl (NetworkError m)).
Proof.
  split; (split; [reflexivity | intros m Hm; discriminate Hm]).
Qed.

Section TransportFailure.

Variable transport : list Request -> Request -> Outcome.
Context {U1 : Unmarshal ProductSearchResult}
        {U2 : Unmarshal (APIResponse (list ProductDetails))}
        {U3 : Unmarshal (APIResponse (list ProductWithOffers))}
        {U4 : Unmarshal (APIResponse (list OfferWithHistory))}
        {U5 : Unmarshal (APIResponse ScheduleResponse)}
        {U6 : Unmarshal (APIResponse (list ScheduleBatchResponse))}
        {U7 : Unmarshal (APIResponse (list ScheduledProduct))}
        {U8 : Unmarshal (APIResponse RemoveResponse)}
        {U9 : Unmarshal (APIResponse (list RemoveBatchResponse))}
        {U10 : Unmarshal (APIResponse UsageInfo)}.

Ltac transport_fails Hdown :=
  intros; rewrite bind_returnResponse;
  unfold Get, Post, Delete;
  rewrite (Execute_transport_failure transport _ _ _ _ (Hdown _));
  reflexivity.

(** C4 (amended).  When the round trip ends without a response, whether
    the deadline passed or the connection failed, every endpoint method
    returns the error of the HTTP stack as it is: neither a [NetworkError]
    nor a [TimeoutError] is made of it. *)
Theorem transport_failure_returned_as_is (c : Client) (log : list Request)
    (fault : TransportFault) :
  (forall req : Request, transport log req = TransportFailed fault) ->
  (forall query limit offset,
     fst (SearchProducts transport c query limit offset log) = inl (TransportError fault)) /\
  (forall identifier format,
     fst (GetProductDetails transport c identifier format log) = inl (TransportError fault)) /\
  (forall identifiers format,
     fst (GetProductDetailsBatch transport c identifiers format log)
       = inl (TransportError fault)) /\
  (forall identifier retailer format,
     fst (GetCurrentOffers transport c identifier retailer format log)
       = inl (TransportError fault)) /\
  (forall identifiers retailer format,
     fst (GetCurrentOffersBatch transport c identifiers retailer format log)
       = inl (TransportError fault)) /\
  (forall identifier startDate endDate retailer format,
     fst (GetPriceHistory transport c identifier startDate endDate retailer format log)
       = inl (TransportError fault)) /\
  (forall identifier frequency retailer,
     fst (ScheduleProductMonitoring transport c identifier frequency retailer log)
       = inl (TransportError fault)) /\
  (forall identifiers frequency retailer,
     fst (ScheduleProductMonitoringBatch transport c identifiers frequency retailer log)
       = inl (TransportError fault)) /\
  fst (GetScheduledProducts transport c log) = inl (TransportError fault) /\
  (forall identifier,
     fst (RemoveProductFromSchedule transport c identifier log)
       = inl (TransportError fault)) /\
  (forall identifiers,
     fst (RemoveProductsFromSchedule transport c identifiers log)
       = inl (TransportError fault)) /\
  fst (GetUsage transport c log) = inl (TransportError fault) /\
  kind (TransportError fault) <> KNetwork /\
  kind (TransportError fault) <> KTimeout.
Proof.
  intros Hdown.
  split; [unfold SearchProducts; transport_fails Hdown |].
  split; [unfold GetProductDetails; transport_fails Hdown |].
  split; [unfold GetProductDetailsBatch; transport_fails Hdown |].
  split; [unfold GetCurrentOffers; transport_fails Hdown |].
  split; [unfold GetCurrentOffersBatch; transport_fails Hdown |].
  split; [unfold GetPriceHistory; transport_fails Hdown |].
  split; [unfold ScheduleProductMonitoring; transport_fails Hdown |].
  split; [unfold ScheduleProductMonitoringBatch; transport_fails Hdown |].
  split; [unfold GetScheduledProducts; transport_fails Hdown |].
  split; [unfold RemoveProductFromSchedule; transport_fails Hdown |].
  split; [unfold RemoveProductsFromSchedule; transport_fails Hdown |].
  split; [unfold GetUsage; transport_fails Hdown |].
  split; discriminate.
Qed.

End TransportFailure.

Lemma transport_failure_returned_as_is_witness :
  fst (GetUsage slowTransport (U10 := noResult _) sampleClient [])
    = inl (TransportError DeadlineExceeded).
Proof.
  apply (transport_failure_returned_as_is slowTransport
           (U1 := noResult _) (U2 := noResult _) (U3 := noResult _) (U4 := noResult _)
           (U5 := noResult _) (U6 := noResult _) (U7 := noResult _) (U8 := noResult _)
           (U9 := noResult _) (U10 := noResult _)
           sampleClient [] DeadlineExceeded).
  intros req. reflexivity.
Defined.

(** ** Batch requests *)

Lemma Join_fold (sep : string) (rest : list string) :
  forall e : string,
    rest <> [] ->
    fold_left (fun b s => (b ++ sep) ++ s) rest e = e ++ sep ++ String.concat sep rest.
Proof.
  induction rest as [| x rest IH]; intros e Hne; [contradiction |].
  destruct rest as [| y rest].
  - simpl. apply append_assoc.
  - change (fold_left (fun b s => (b ++ sep) ++ s) (x :: y :: rest) e)
      with (fold_left (fun b s => (b ++ sep) ++ s) (y :: rest) ((e ++ sep) ++ x)).
    rewrite IH by discriminate.
    change (String.concat sep (x :: y :: rest))
      with (x ++ sep ++ String.concat sep (y :: rest)).
    now rewrite !append_assoc.
Qed.

(** [strings.Join] puts the separator between consecutive elements. *)
Lemma Join_concat (elems : list string) (sep : string) :
  Join elems sep = String.concat sep elems.
Proof.
  destruct elems as [| e [| x rest]]; try reflexivity.
  unfold Join. rewrite Join_fold by discriminate. reflexivity.
Qed.

Lemma lookup_setIf_ne (key k : string) (v : option string) (m : gmap string string) :
  key <> k -> setIf key v m !! k = m !! k.
Proof.
  intros Hne. destruct v as [x |]; simpl; [| reflexivity].
  now apply lookup_insert_ne.
Qed.

Section Batch.

Variable transport : list Request -> Request -> Outcome.
Context {U2 : Unmarshal (APIResponse (list ProductDetails))}
        {U3 : Unmarshal (APIResponse (list ProductWithOffers))}
        {U6 : Unmarshal (APIResponse (list ScheduleBatchResponse))}
        {U9 : Unmarshal (APIResponse (list RemoveBatchResponse))}.

Ltac one_request :=
  rewrite bind_returnResponse; unfold Get, Post, Delete; rewrite Execute_log;
  eexists; split; [reflexivity |]; simpl.

(** C8.  Each batch method sends one request, and in it the identifiers
    travel as one parameter whose value is the identifiers joined with
    commas in input order: the query parameter [ids] of
    [GetProductDetailsBatch] and [GetCurrentOffersBatch], the body field
    [identifiers] of [ScheduleProductMonitoringBatch] and
    [RemoveProductsFromSchedule]. *)
Theorem batch_identifiers_comma_joined (c : Client) (identifiers : list string)
    (retailer frequency : string) (format retailers : list string) (log : list Request) :
  (exists req : Request,
     snd (GetProductDetailsBatch transport c identifiers format log) = (log ++ [req])%list /\
     req_QueryParam req !! "ids" = Some (commaJoined identifiers)) /\
  (exists req : Request,
     snd (GetCurrentOffersBatch transport c identifiers retailer format log)
       = (log ++ [req])%list /\
     req_QueryParam req !! "ids" = Some (commaJoined identifiers)) /\
  (exists (req : Request) (body : gmap string string),
     snd (ScheduleProductMonitoringBatch transport c identifiers frequency retailers log)
       = (log ++ [req])%list /\
     req_Body req = Some body /\
     body !! "identifiers" = Some (commaJoined identifiers)) /\
  (exists (req : Request) (body : gmap string string),
     snd (RemoveProductsFromSchedule transport c identifiers log) = (log ++ [req])%list /\
     req_Body req = Some body /\
     body !! "identifiers" = Some (commaJoined identifiers)).
Proof.
  unfold commaJoined. rewrite <- (Join_concat identifiers ",").
  split; [| split; [| split]].
  - unfold GetProductDetailsBatch. one_request.
    apply lookup_union_Some_l. rewrite lookup_setIf_ne by discriminate.
    apply lookup_singleton_eq.
  - unfold GetCurrentOffersBatch. one_request.
    apply lookup_union_Some_l. rewrite lookup_setIf_ne by discriminate.
    destruct (negb (String.eqb retailer "")).
    + rewrite lookup_insert_ne by discriminate. apply lookup_singleton_eq.
    + apply lookup_singleton_eq.
  - unfold ScheduleProductMonitoringBatch.
    rewrite bind_returnResponse; unfold Post; rewrite Execute_log.
    eexists; eexists; split; [reflexivity |]. split; [reflexivity |].
    rewrite lookup_setIf_ne by discriminate.
    rewrite lookup_insert_ne by discriminate. apply lookup_singleton_eq.
  - unfold RemoveProductsFromSchedule.
    rewrite bind_returnResponse; unfold Delete; rewrite Execute_log.
    eexists; eexists; split; [reflexivity |]. split; [reflexivity |].
    apply lookup_singleton_eq.
Qed.

End Batch.

(** ** Runs on concrete inputs *)

Example commaJoined_three :
  commaJoined ["012345678901"; "B08N5WRWNW"; "045496590048"]
    = "012345678901,B08N5WRWNW,045496590048".
Proof. reflexivity. Qed.

Example Join_none : Join [] "," = "".
Proof. reflexivity. Qed.

Example Join_one : Join ["012345678901"] "," = "012345678901".
Proof. reflexivity. Qed.

Example Join_three : Join ["a"; "b"; "c"] "," = "a,b,c".
Proof. reflexivity. Qed.

Example GetProductDetailsBatch_request :
  snd (GetProductDetailsBatch slowTransport (U2 := noResult _) sampleClient
         ["012345678901"; "B08N5WRWNW"] ["csv"] [])
  = [ {| req_Method := GET;
         req_BaseURL := "https://api.shopsavvy.com/v1";
         req_Path := "/products";
         req_Header := rc_Header (client sampleClient);
         req_QueryParam :=
           {[ "ids" := "012345678901,B08N5WRWNW" ]} ∪ {[ "format" := "csv" ]};
         req_Body := None |} ].
Proof. vm_compute. reflexivity. Qed.

Example NewClient_empty_key :
  NewClient "" [] [] =
    (inl (ErrorString "API key is required. Get one at https://shopsavvy.com/data"), []).
Proof. reflexivity. Qed.

Example NewClient_wrong_prefix :
  NewClient "sk_live_abc123" [] [] =
    (inl (ErrorString
            "invalid API key format. API keys should start with ss_live_ or ss_test_"),
     []).
Proof. vm_compute. reflexivity. Qed.

Example NewClient_wrong_separator :
  NewClient "ss-live-abc123" [] [] =
    (inl (ErrorString
            "invalid API key format. API keys should start with ss_live_ or ss_test_"),
     []).
Proof. vm_compute. reflexivity. Qed.

(** The placeholder key of the package's documentation has underscores in
    its suffix, which the class [[a-zA-Z0-9]] does not admit. *)
Example NewClient_suffix_not_alphanumeric :
  fst (NewClient "ss_live_your_api_key_here" [] []) =
    inl (ErrorString
           "invalid API key format. API keys should start with ss_live_ or ss_test_").
Proof. vm_compute. reflexivity. Qed.

Example NewClient_sample : NewClient "ss_live_abc123" [] [] = (inr sampleClient, []).
Proof.
  unfold NewClient. simpl fold_left.
  replace (MatchString apiKeyPattern _) with true by (vm_compute; reflexivity).
  reflexivity.
Qed.

Example handleErrorResponse_500 :
  handleErrorResponse response500 = APIError "HTTP 500: Internal Server Error" 500.
Proof. vm_compute. reflexivity. Qed.

Example handleErrorResponse_599 :
  handleErrorResponse {| resp_StatusCode := 599; resp_Error := None; resp_Body := "" |}
    = APIError "HTTP 599: " 599.
Proof. vm_compute. reflexivity. Qed.

Example Error_APIError :
  Error (handleErrorResponse response500)
    = Some "API error (500): HTTP 500: Internal Server Error".
Proof. vm_compute. reflexivity. Qed.

(** A failed lookup, end to end: the service answers 429 and
    [GetProductDetails] returns the rate-limit error with its fixed text. *)
Example GetProductDetails_429 :
  fst (GetProductDetails (fun _ _ => Responded response429) (U2 := noResult _)
         sampleClient "012345678901" [] [])
    = inl (RateLimitError "Rate limit exceeded. Please slow down your requests." 429).
Proof. reflexivity. Qed.

(** ** No round trip yields a network or timeout error *)

Lemma handleErrorResponse_not_network (resp : Response) :
  kind (handleErrorResponse resp) <> KNetwork /\
  kind (handleErrorResponse resp) <> KTimeout.
Proof.
  rewrite handleErrorResponse_eq. cbv zeta.
  repeat match goal with |- context [Z.eqb ?a ?b] => destruct (Z.eqb a b) end;
    split; discriminate.
Qed.

Lemma Execute_not_network (transport : list Request -> Request -> Outcome)
    {Res : Type} {U : Unmarshal Res} (c : Client) (req : Request)
    (log : list Request) (e : error) :
  builtByNewClient c ->
  fst (Execute transport c req log) = inl e ->
  kind e <> KNetwork /\ kind e <> KTimeout.
Proof.
  intros Hc. unfold Execute.
  destruct (transport log req) as [fault | resp].
  - intros [= <-]. split; discriminate.
  - rewrite (NewClient_hook c resp Hc).
    destruct (IsError resp).
    + intros [= <-]. apply handleErrorResponse_not_network.
    + destruct (SetResult resp); intros [= <-]. split; discriminate.
Qed.

(** * Further properties of the code *)

(** ** Construction: options and the key *)

(** [NewClient], with the configuration it works on named. *)
Lemma NewClient_effective (apiKey : string) (options : list Option) (log : list Request) :
  NewClient apiKey options log =
    (let cfg := effectiveConfig apiKey options in
     if String.eqb (APIKey cfg) "" then
       inl (ErrorString "API key is required. Get one at https://shopsavvy.com/data")
     else if MatchString apiKeyPattern (APIKey cfg) then
       inr {| config := cfg;
              client :=
                {| rc_BaseURL := TrimRight (BaseURL cfg) "/";
                   rc_Timeout := Timeout cfg;
                   rc_Header := clientHeaders (APIKey cfg);
                   rc_AfterResponse := fun resp =>
                     if IsError resp then Some (handleErrorResponse resp) else None |} |}
     else
       inl (ErrorString
              "invalid API key format. API keys should start with ss_live_ or ss_test_"),
     log).
Proof.
  unfold NewClient. fold (effectiveConfig apiKey options). cbv zeta.
  destruct (String.eqb _ ""); [reflexivity |].
  destruct (MatchString _ _); reflexivity.
Qed.

Lemma effectiveConfig_keepsAPIKey (apiKey : string) (options : list Option) :
  Forall keepsAPIKey options -> APIKey (effectiveConfig apiKey options) = apiKey.
Proof. intros Hk. unfold effectiveConfig. now rewrite options_keep_APIKey. Qed.

(** The options run before the key is checked, so the key that counts is
    the one the configuration holds after them: [NewClient] succeeds, and
    keeps that configuration, exactly when that key is well formed; else it
    fails with a plain error.  Either way nothing is sent. *)
Theorem NewClient_validates_effective_key (apiKey : string) (options : list Option)
    (log : list Request) :
  (wellFormedKey (APIKey (effectiveConfig apiKey options)) ->
   exists c : Client,
     NewClient apiKey options log = (inr c, log) /\
     config c = effectiveConfig apiKey options) /\
  (~ wellFormedKey (APIKey (effectiveConfig apiKey options)) ->
   exists text : string,
     NewClient apiKey options log = (inl (ErrorString text), log)).
Proof.
  rewrite NewClient_effective. cbv zeta. split.
  - intros Hok. pose proof (wellFormedKey_nonempty _ Hok) as Hne.
    apply String.eqb_neq in Hne. rewrite Hne.
    apply MatchString_apiKeyPattern in Hok. rewrite Hok.
    eexists. split; reflexivity.
  - intros Hbad. destruct (String.eqb _ ""); [eexists; reflexivity |].
    destruct (MatchString _ _) eqn:Em; [| eexists; reflexivity].
    exfalso. apply Hbad, MatchString_apiKeyPattern, Em.
Qed.

Lemma NewClient_validates_effective_key_witness :
  (exists c : Client,
     NewClient "" [setAPIKey "ss_test_k1"] [] = (inr c, []) /\
     config c = effectiveConfig "" [setAPIKey "ss_test_k1"]) /\
  (exists text : string,
     NewClient "ss_live_abc123" [setAPIKey "none"] [] = (inl (ErrorString text), [])).
Proof.
  split.
  - apply (NewClient_validates_effective_key "" [setAPIKey "ss_test_k1"] []).
    apply MatchString_apiKeyPattern. vm_compute. reflexivity.
  - apply (NewClient_validates_effective_key "ss_live_abc123" [setAPIKey "none"] []).
    intros Hw. apply MatchString_apiKeyPattern in Hw. vm_compute in Hw. discriminate Hw.
Defined.

Lemma dropWhile_head {A : Type} (p : A -> bool) (l : list A) (x : A) (t : list A) :
  dropWhile p l = x :: t -> p x = false.
Proof.
  induction l as [| y l IH]; simpl; [discriminate |].
  destruct (p y) eqn:Ep; [exact IH |]. intros [= <- _]. exact Ep.
Qed.

Lemma dropWhile_split (l : list ascii) :
  exists k : nat,
    l = (repeat "/"%char k
         ++ dropWhile (fun c => existsb (Ascii.eqb c) (list_ascii_of_string "/")) l)%list.
Proof.
  induction l as [| y l (k & IH)]; [exists 0%nat; reflexivity |].
  cbn [dropWhile].
  destruct (existsb (Ascii.eqb y) (list_ascii_of_string "/")) eqn:Ey.
  - simpl in Ey. rewrite orb_false_r in Ey. apply Ascii.eqb_eq in Ey. subst y.
    exists (S k). cbn [repeat app]. f_equal. exact IH.
  - exists 0%nat. reflexivity.
Qed.

Lemma rev_repeat_same {A : Type} (x : A) (k : nat) : rev (repeat x k) = repeat x k.
Proof.
  induction k as [| k IH]; [reflexivity |]. simpl. rewrite IH.
  clear IH. induction k as [| k IH]; [reflexivity |]. simpl. now rewrite IH.
Qed.

(** [TrimRight] at the cutset [/] cuts a run of slashes off the end, and
    what is left does not end with a slash. *)
Lemma TrimRight_slashes (s : string) :
  (exists k : nat, s = TrimRight s "/" ++ slashes k) /\
  (forall p : string, TrimRight s "/" <> p ++ "/").
Proof.
  unfold TrimRight, slashes. split.
  - destruct (dropWhile_split (rev (list_ascii_of_string s))) as (k & Hk).
    exists k. rewrite <- string_of_list_ascii_app.
    rewrite <- (rev_repeat_same "/"%char k), <- rev_app_distr, <- Hk, rev_involutive.
    symmetry. apply string_of_list_ascii_of_string.
  - intros p Heq. apply (f_equal list_ascii_of_string) in Heq.
    rewrite list_ascii_of_string_of_list_ascii, list_ascii_of_string_app in Heq.
    apply (f_equal (@rev ascii)) in Heq. rewrite rev_involutive, rev_app_distr in Heq.
    simpl in Heq. apply dropWhile_head in Heq. discriminate Heq.
Qed.

(** Whatever the arguments were, a client that [NewClient] returned holds a
    well-formed key.  Its HTTP client has the base URL of its configuration
    with the trailing slashes cut off, so that it never ends with a slash,
    the timeout of its configuration and exactly three headers: the bearer
    token made of the key, the JSON content type and the user agent of the
    SDK. *)
Theorem NewClient_client_invariant (c : Client) :
  builtByNewClient c ->
  wellFormedKey (APIKey (config c)) /\
  rc_BaseURL (client c) = TrimRight (BaseURL (config c)) "/" /\
  (exists k : nat, BaseURL (config c) = rc_BaseURL (client c) ++ slashes k) /\
  (forall p : string, rc_BaseURL (client c) <> p ++ "/") /\
  rc_Timeout (client c) = Timeout (config c) /\
  rc_Header (client c) = clientHeaders (APIKey (config c)) /\
  rc_Header (client c) !! "Authorization" = Some ("Bearer " ++ APIKey (config c)) /\
  rc_Header (client c) !! "Content-Type" = Some "application/json" /\
  rc_Header (client c) !! "User-Agent" = Some "ShopSavvy-Go-SDK/1.0.1".
Proof.
  intros (apiKey & options & log & Hnew). rewrite NewClient_effective in Hnew.
  cbv zeta in Hnew.
  destruct (String.eqb _ "") in Hnew; [discriminate Hnew |].
  destruct (MatchString _ _) eqn:Em in Hnew; [| discriminate Hnew].
  injection Hnew as <-. cbn [config client rc_BaseURL rc_Timeout rc_Header].
  split; [apply MatchString_apiKeyPattern, Em |].
  split; [reflexivity |].
  split; [apply TrimRight_slashes |]. split; [apply TrimRight_slashes |].
  split; [reflexivity |]. split; [reflexivity |].
  unfold clientHeaders. split; [| split].
  - rewrite !lookup_insert_ne by discriminate. apply lookup_insert_eq.
  - rewrite lookup_insert_ne by discriminate. apply lookup_insert_eq.
  - apply lookup_insert_eq.
Qed.

Lemma NewClient_client_invariant_witness :
  wellFormedKey (APIKey (config sampleClient)) /\
  rc_BaseURL (client sampleClient) = TrimRight (BaseURL (config sampleClient)) "/" /\
  (exists k : nat,
     BaseURL (config sampleClient) = rc_BaseURL (client sampleClient) ++ slashes k) /\
  (forall p : string, rc_BaseURL (client sampleClient) <> p ++ "/") /\
  rc_Timeout (client sampleClient) = Timeout (config sampleClient) /\
  rc_Header (client sampleClient) = clientHeaders (APIKey (config sampleClient)) /\
  rc_Header (client sampleClient) !! "Authorization"
    = Some ("Bearer " ++ APIKey (config sampleClient)) /\
  rc_Header (client sampleClient) !! "Content-Type" = Some "application/json" /\
  rc_Header (client sampleClient) !! "User-Agent" = Some "ShopSavvy-Go-SDK/1.0.1".
Proof.
  apply (NewClient_client_invariant sampleClient).
  exists "ss_live_abc123", [], []. vm_compute. reflexivity.
Defined.

Lemma last_cons {A : Type} (a d : A) (l : list A) : List.last (a :: l) d = List.last l a.
Proof.
  revert a d. induction l as [| b l IH]; intros a d; [reflexivity |].
  change (List.last (a :: b :: l) d) with (List.last (b :: l) d).
  now rewrite !IH.
Qed.

Lemma sdkOptions_fold (os : list (string + Z)) :
  forall cfg : Config,
    let r := fold_left (fun c option => option c) (map sdkOption os) cfg in
    APIKey r = APIKey cfg /\
    BaseURL r = List.last (baseURLsOf os) (BaseURL cfg) /\
    Timeout r = List.last (timeoutsOf os) (Timeout cfg).
Proof.
  induction os as [| [u | t] os IH]; intros cfg; cbv zeta.
  - repeat split.
  - destruct (IH (WithBaseURL u cfg)) as (Hk & Hu & Ht). simpl map. simpl fold_left.
    rewrite Hk, Hu, Ht. unfold baseURLsOf, timeoutsOf. simpl omap.
    rewrite last_cons. repeat split.
  - destruct (IH (WithTimeout t cfg)) as (Hk & Hu & Ht). simpl map. simpl fold_left.
    rewrite Hk, Hu, Ht. unfold baseURLsOf, timeoutsOf. simpl omap.
    rewrite last_cons. repeat split.
Qed.

(** With a well-formed key and any sequence of the package's two options,
    [NewClient] succeeds.  The configuration holds the argument of the last
    [WithBaseURL] as it was given, or the production default when there is
    none, and the HTTP client holds it with the trailing slashes cut off.
    The timeout of both is the argument of the last [WithTimeout], or 30
    seconds.  No value is checked: an empty base URL or a timeout of zero
    or less is accepted. *)
Theorem NewClient_last_option_wins (apiKey : string) (os : list (string + Z))
    (log : list Request) :
  wellFormedKey apiKey ->
  exists c : Client,
    NewClient apiKey (map sdkOption os) log = (inr c, log) /\
    APIKey (config c) = apiKey /\
    BaseURL (config c) = List.last (baseURLsOf os) "https://api.shopsavvy.com/v1" /\
    rc_BaseURL (client c)
      = TrimRight (List.last (baseURLsOf os) "https://api.shopsavvy.com/v1") "/" /\
    Timeout (config c) = List.last (timeoutsOf os) 30000000000 /\
    rc_Timeout (client c) = List.last (timeoutsOf os) 30000000000.
Proof.
  intros Hok. rewrite NewClient_effective. cbv zeta. unfold effectiveConfig.
  destruct (sdkOptions_fold os
    {| APIKey := apiKey; BaseURL := "https://api.shopsavvy.com/v1";
       Timeout := 30 * Second |}) as (Hk & Hu & Ht).
  cbv zeta in Hk, Hu, Ht. simpl in Hk, Hu, Ht.
  rewrite Hk. pose proof (wellFormedKey_nonempty _ Hok) as Hne.
  apply String.eqb_neq in Hne. rewrite Hne.
  apply MatchString_apiKeyPattern in Hok. rewrite Hok.
  eexists. split; [reflexivity |].
  cbn [config client rc_BaseURL rc_Timeout APIKey BaseURL Timeout].
  rewrite Hu, Ht. repeat split. exact Hk.
Qed.

Lemma NewClient_last_option_wins_witness :
  exists c : Client,
    NewClient "ss_test_Ab9"
      [WithTimeout 5000000000; WithBaseURL "http://localhost:8080//"; WithTimeout 0] []
      = (inr c, []) /\
    APIKey (config c) = "ss_test_Ab9" /\
    BaseURL (config c) = "http://localhost:8080//" /\
    rc_BaseURL (client c) = "http://localhost:8080" /\
    Timeout (config c) = 0 /\
    rc_Timeout (client c) = 0.
Proof.
  apply (NewClient_last_option_wins "ss_test_Ab9"
           [inr 5000000000; inl "http://localhost:8080//"; inr 0] []).
  apply MatchString_apiKeyPattern. vm_compute. reflexivity.
Defined.

Lemma wellFormedKey_keyChars (key : string) :
  wellFormedKey key -> forallb keyChar (list_ascii_of_string key) = true.
Proof.
  intros (env & suffix & -> & Henv & _ & Hall).
  rewrite !list_ascii_of_string_app, !forallb_app.
  assert (Hs : forallb keyChar (list_ascii_of_string suffix) = true).
  { apply forallb_forall. rewrite Forall_forall in Hall. intros x Hx.
    unfold keyChar. rewrite (Hall x); [reflexivity |]. apply list_elem_of_In, Hx. }
  rewrite Hs. destruct Henv as [-> | ->]; reflexivity.
Qed.

(** A key that holds any character other than a letter, a digit or the
    underscore (a space, a line end left by a file or an environment
    variable, a dash, a byte above 127) is rejected as badly formatted: the
    key is not trimmed before it is checked. *)
Theorem NewClient_rejects_other_characters (apiKey : string) (options : list Option)
    (log : list Request) (ch : ascii) :
  Forall keepsAPIKey options ->
  In ch (list_ascii_of_string apiKey) ->
  keyChar ch = false ->
  NewClient apiKey options log =
    (inl (ErrorString
            "invalid API key format. API keys should start with ss_live_ or ss_test_"),
     log).
Proof.
  intros Hopts Hin Hch. rewrite NewClient_effective. cbv zeta.
  rewrite (effectiveConfig_keepsAPIKey apiKey options Hopts).
  destruct (String.eqb_spec apiKey "") as [-> | _]; [destruct Hin |].
  destruct (MatchString apiKeyPattern apiKey) eqn:Em; [| reflexivity].
  apply MatchString_apiKeyPattern, wellFormedKey_keyChars in Em.
  rewrite forallb_forall in Em. rewrite (Em ch Hin) in Hch. discriminate Hch.
Qed.

Lemma NewClient_rejects_other_characters_witness :
  NewClient ("ss_live_abc123" ++ String (ascii_of_nat 10) "") [] [] =
    (inl (ErrorString
            "invalid API key format. API keys should start with ss_live_ or ss_test_"),
     []).
Proof.
  apply (NewClient_rejects_other_characters
           ("ss_live_abc123" ++ String (ascii_of_nat 10) "") [] [] (ascii_of_nat 10)).
  - constructor.
  - vm_compute. tauto.
  - reflexivity.
Defined.

(** ** The requests the endpoint methods send *)

Lemma withTarget_query (c : Client) (path : string) (params : gmap string string) :
  withTarget GET path (SetQueryParams params (R c)) = queryRequest c path params.
Proof.
  unfold withTarget, SetQueryParams, R, queryRequest. simpl.
  now rewrite (right_id_L ∅ (∪)).
Qed.

Lemma withTarget_plain (c : Client) (path : string) :
  withTarget GET path (R c) = queryRequest c path ∅.
Proof. reflexivity. Qed.

Lemma withTarget_body (c : Client) (m : HTTPMethod) (path : string)
    (body : gmap string string) :
  withTarget m path (SetBody body (R c)) = bodyRequest c m path body.
Proof. reflexivity. Qed.

Lemma snd_outcome {A : Type} (x : (error + A) * list Request) : snd (outcome x) = snd x.
Proof. reflexivity. Qed.

Lemma fst_outcome {A : Type} (x : (error + A) * list Request) :
  fst (outcome x) = match fst x with inl e => Some e | inr _ => None end.
Proof. reflexivity. Qed.

(** Brings a call of an endpoint method to the round trip it makes. *)
Ltac to_round_trip :=
  unfold SearchProducts, GetProductDetails, GetProductDetailsBatch, GetCurrentOffers,
    GetCurrentOffersBatch, GetPriceHistory, ScheduleProductMonitoring,
    ScheduleProductMonitoringBatch, GetScheduledProducts, RemoveProductFromSchedule,
    RemoveProductsFromSchedule, GetUsage;
  rewrite ?bind_returnResponse; unfold Get, Post, Delete;
  rewrite ?withTarget_query, ?withTarget_body, ?withTarget_plain.

Section Requests.

Variable transport : list Request -> Request -> Outcome.
Context {U1 : Unmarshal ProductSearchResult}
        {U2 : Unmarshal (APIResponse (list ProductDetails))}
        {U3 : Unmarshal (APIResponse (list ProductWithOffers))}
        {U4 : Unmarshal (APIResponse (list OfferWithHistory))}
        {U5 : Unmarshal (APIResponse ScheduleResponse)}
        {U6 : Unmarshal (APIResponse (list ScheduleBatchResponse))}
        {U7 : Unmarshal (APIResponse (list ScheduledProduct))}
        {U8 : Unmarshal (APIResponse RemoveResponse)}
        {U9 : Unmarshal (APIResponse (list RemoveBatchResponse))}
        {U10 : Unmarshal (APIResponse UsageInfo)}.

(** The round trip behind every call. *)
Lemma endpointCall_round_trip (c : Client) (log : list Request)
    (r : option error * list Request) :
  endpointCall transport c log r ->
  exists (req : Request) (x : option error),
    r = (x, (log ++ [req])%list) /\
    ((exists (path : string) (params : gmap string string),
        req = queryRequest c path params /\ In (GET, path) endpoints) \/
     (exists (m : HTTPMethod) (path : string) (body : gmap string string),
        req = bodyRequest c m path body /\ m <> GET /\ In (m, path) endpoints)) /\
    (forall fault, transport log req = TransportFailed fault ->
       x = Some (TransportError fault)) /\
    (forall resp, transport log req = Responded resp ->
       match rc_AfterResponse (client c) resp with
       | Some err => x = Some err
       | None => x = None \/ exists reason, x = Some (UnmarshalError reason)
       end).
Proof.
  intros Hcall.
  destruct Hcall; unfold outcome; to_round_trip;
    match goal with
    | |- context [Execute transport c ?rq log] =>
        exists rq; eexists; split;
          [ rewrite Execute_log; reflexivity
          | split;
            [ first [ left; do 2 eexists; split; [reflexivity | simpl; tauto]
                    | right; do 3 eexists; split;
                        [reflexivity | split; [discriminate | simpl; tauto]] ]
            | unfold Execute; split;
              [ intros fault Hf; rewrite Hf; reflexivity
              | intros resp Hr; rewrite Hr;
                destruct (rc_AfterResponse (client c) resp); [reflexivity |];
                destruct (SetResult resp); simpl; eauto ] ] ]
    end.
Qed.

End Requests.

Lemma handleErrorResponse_by_status (resp : Response) :
  let code := resp_StatusCode resp in
  let e := handleErrorResponse resp in
  typedError e /\
  StatusCode e = Some code /\
  ((code = 401 /\ kind e = KAuthentication) \/
   (code = 404 /\ kind e = KNotFound) \/
   (code = 422 /\ kind e = KValidation) \/
   (code = 429 /\ kind e = KRateLimit) \/
   (otherStatus code /\ kind e = KAPI)).
Proof.
  cbv zeta. rewrite handleErrorResponse_eq. cbv zeta. unfold otherStatus.
  destruct (Z.eqb_spec (resp_StatusCode resp) 401) as [E1 | N1];
    [| destruct (Z.eqb_spec (resp_StatusCode resp) 404) as [E2 | N2];
       [| destruct (Z.eqb_spec (resp_StatusCode resp) 422) as [E3 | N3];
          [| destruct (Z.eqb_spec (resp_StatusCode resp) 429) as [E4 | N4]]]];
    simpl; (split; [exact I |]); (split; [reflexivity |]); tauto.
Qed.

Section CallProperties.

Variable transport : list Request -> Request -> Outcome.
Context {U1 : Unmarshal ProductSearchResult}
        {U2 : Unmarshal (APIResponse (list ProductDetails))}
        {U3 : Unmarshal (APIResponse (list ProductWithOffers))}
        {U4 : Unmarshal (APIResponse (list OfferWithHistory))}
        {U5 : Unmarshal (APIResponse ScheduleResponse)}
        {U6 : Unmarshal (APIResponse (list ScheduleBatchResponse))}
        {U7 : Unmarshal (APIResponse (list ScheduledProduct))}
        {U8 : Unmarshal (APIResponse RemoveResponse)}
        {U9 : Unmarshal (APIResponse (list RemoveBatchResponse))}
        {U10 : Unmarshal (APIResponse UsageInfo)}.

(** The request an endpoint method submits, whatever its arguments, has one
    of two shapes: a [GET] for one of the six read endpoints, with query
    parameters and no body, or a [POST] or [DELETE] for
    [/products/schedule], with a body and no query parameter.  No method
    submits anything else: no other path, no other HTTP method, no [GET]
    with a body, no body together with query parameters. *)
Theorem endpointCall_request_shape (c : Client) (log : list Request)
    (r : option error * list Request) :
  endpointCall transport c log r ->
  (exists (path : string) (params : gmap string string),
     snd r = (log ++ [queryRequest c path params])%list /\
     In path ["/products/search"; "/products"; "/products/offers";
              "/products/offers/history"; "/products/scheduled"; "/usage"]) \/
  (exists (m : HTTPMethod) (body : gmap string string),
     snd r = (log ++ [bodyRequest c m "/products/schedule" body])%list /\
     (m = POST \/ m = DELETE)).
Proof.
  intros Hcall.
  destruct Hcall; unfold outcome; to_round_trip; cbn [snd]; rewrite Execute_log;
    first [ left; do 2 eexists; split; [reflexivity | simpl; tauto]
          | right; do 2 eexists; split; [reflexivity | tauto] ].
Qed.

(** On a client that [NewClient] returned, the request of every call is
    addressed to the base URL of the configuration, trailing slashes cut
    off, and carries the bearer token made of the (well-formed) key, the
    JSON content type and the user agent of the SDK. *)
Theorem endpointCall_authenticated (c : Client) (log : list Request)
    (r : option error * list Request) :
  builtByNewClient c ->
  endpointCall transport c log r ->
  exists req : Request,
    snd r = (log ++ [req])%list /\
    req_BaseURL req = TrimRight (BaseURL (config c)) "/" /\
    req_Header req !! "Authorization" = Some ("Bearer " ++ APIKey (config c)) /\
    req_Header req !! "Content-Type" = Some "application/json" /\
    req_Header req !! "User-Agent" = Some "ShopSavvy-Go-SDK/1.0.1".
Proof.
  intros (apiKey & options & log0 & Hnew) Hcall.
  rewrite NewClient_effective in Hnew. cbv zeta in Hnew.
  destruct (String.eqb _ "") in Hnew; [discriminate Hnew |].
  destruct (MatchString _ _) in Hnew; [| discriminate Hnew].
  injection Hnew as <-.
  destruct (endpointCall_round_trip transport _ log r Hcall)
    as (req & x & -> & Hshape & _).
  exists req. split; [reflexivity |].
  destruct Hshape as [(path & params & -> & _) | (m & path & body & -> & _)];
    cbn [queryRequest bodyRequest req_BaseURL req_Header client config rc_BaseURL rc_Header];
    unfold clientHeaders;
    (split; [reflexivity |]);
    (split; [rewrite !lookup_insert_ne by discriminate; apply lookup_insert_eq |]);
    (split; [rewrite lookup_insert_ne by discriminate; apply lookup_insert_eq |]);
    apply lookup_insert_eq.
Qed.

(** What a call can fail with, on a client that [NewClient] returned: the
    error of the HTTP stack, an unmarshalling error, or one of the five
    errors that carry a status code.  Such an error carries a status above
    399, and its type tells the status: 401, 404, 422, 429, or any other.
    In particular no call returns a [NetworkError], a [TimeoutError] or a
    plain [fmt.Errorf] error, and a response with a status of 399 or less is
    never turned into one of the package's errors. *)
Theorem endpointCall_error_taxonomy (c : Client) (log : list Request)
    (r : option error * list Request) (e : error) :
  builtByNewClient c ->
  endpointCall transport c log r ->
  fst r = Some e ->
  kind e <> KNetwork /\ kind e <> KTimeout /\ kind e <> KErrorString /\
  (typedError e ->
   exists code : Z,
     StatusCode e = Some code /\ 399 < code /\
     ((code = 401 /\ kind e = KAuthentication) \/
      (code = 404 /\ kind e = KNotFound) \/
      (code = 422 /\ kind e = KValidation) \/
      (code = 429 /\ kind e = KRateLimit) \/
      (otherStatus code /\ kind e = KAPI))).
Proof.
  intros Hc Hcall He.
  destruct (endpointCall_round_trip transport c log r Hcall)
    as (req & x & -> & _ & Hfail & Hresp).
  simpl in He. subst x.
  destruct (transport log req) as [fault | resp] eqn:Ht.
  - specialize (Hfail fault eq_refl). injection Hfail as ->.
    repeat split; try discriminate. intros [].
  - specialize (Hresp resp eq_refl). rewrite (NewClient_hook c resp Hc) in Hresp.
    destruct (IsError resp) eqn:Eerr.
    + injection Hresp as ->.
      destruct (handleErrorResponse_by_status resp) as (Hty & Hst & Hk).
      cbv zeta in Hty, Hst, Hk.
      assert (Hkind : kind (handleErrorResponse resp) <> KNetwork /\
                      kind (handleErrorResponse resp) <> KTimeout /\
                      kind (handleErrorResponse resp) <> KErrorString).
      { destruct Hk as [[_ ->] | [[_ ->] | [[_ ->] | [[_ ->] | [_ ->]]]]];
          repeat split; discriminate. }
      destruct Hkind as (K1 & K2 & K3). repeat split; auto.
      exists (resp_StatusCode resp). split; [exact Hst |]. split; [| exact Hk].
      unfold IsError in Eerr. apply Z.ltb_lt in Eerr. exact Eerr.
    + destruct Hresp as [Hnone | [reason Hr]]; [discriminate Hnone |].
      injection Hr as ->. repeat split; try discriminate. intros [].
Qed.

End CallProperties.

Lemma endpointCall_request_shape_witness :
  (exists (path : string) (params : gmap string string),
     snd (outcome (RemoveProductsFromSchedule slowTransport (U9 := noResult _)
                     sampleClient ["012345678901"; "B08N5WRWNW"] []))
       = ([] ++ [queryRequest sampleClient path params])%list /\
     In path ["/products/search"; "/products"; "/products/offers";
              "/products/offers/history"; "/products/scheduled"; "/usage"]) \/
  (exists (m : HTTPMethod) (body : gmap string string),
     snd (outcome (RemoveProductsFromSchedule slowTransport (U9 := noResult _)
                     sampleClient ["012345678901"; "B08N5WRWNW"] []))
       = ([] ++ [bodyRequest sampleClient m "/products/schedule" body])%list /\
     (m = POST \/ m = DELETE)).
Proof.
  apply (endpointCall_request_shape slowTransport
           (U1 := noResult _) (U2 := noResult _) (U3 := noResult _) (U4 := noResult _)
           (U5 := noResult _) (U6 := noResult _) (U7 := noResult _) (U8 := noResult _)
           (U9 := noResult _) (U10 := noResult _) sampleClient []).
  apply call_RemoveProductsFromSchedule.
Defined.

Lemma endpointCall_authenticated_witness :
  exists req : Request,
    snd (outcome (GetUsage downTransport (U10 := noResult _) sampleClient []))
      = ([] ++ [req])%list /\
    req_BaseURL req = TrimRight (BaseURL (config sampleClient)) "/" /\
    req_Header req !! "Authorization" = Some ("Bearer " ++ APIKey (config sampleClient)) /\
    req_Header req !! "Content-Type" = Some "application/json" /\
    req_Header req !! "User-Agent" = Some "ShopSavvy-Go-SDK/1.0.1".
Proof.
  apply (endpointCall_authenticated downTransport
           (U1 := noResult _) (U2 := noResult _) (U3 := noResult _) (U4 := noResult _)
           (U5 := noResult _) (U6 := noResult _) (U7 := noResult _) (U8 := noResult _)
           (U9 := noResult _) (U10 := noResult _) sampleClient []).
  - exists "ss_live_abc123", [], []. vm_compute. reflexivity.
  - apply call_GetUsage.
Defined.

Lemma endpointCall_error_taxonomy_witness :
  kind (handleErrorResponse response429) <> KNetwork /\
  kind (handleErrorResponse response429) <> KTimeout /\
  kind (handleErrorResponse response429) <> KErrorString /\
  exists code : Z,
    StatusCode (handleErrorResponse response429) = Some code /\ 399 < code /\
    ((code = 401 /\ kind (handleErrorResponse response429) = KAuthentication) \/
     (code = 404 /\ kind (handleErrorResponse response429) = KNotFound) \/
     (code = 422 /\ kind (handleErrorResponse response429) = KValidation) \/
     (code = 429 /\ kind (handleErrorResponse response429) = KRateLimit) \/
     (otherStatus code /\ kind (handleErrorResponse response429) = KAPI)).
Proof.
  destruct (endpointCall_error_taxonomy (answering response429)
              (U1 := noResult _) (U2 := noResult _) (U3 := noResult _) (U4 := noResult _)
              (U5 := noResult _) (U6 := noResult _) (U7 := noResult _) (U8 := noResult _)
              (U9 := noResult _) (U10 := noResult _) sampleClient []
              (outcome (GetProductDetails (answering response429) (U2 := noResult _)
                          sampleClient "012345678901" [] []))
              (handleErrorResponse response429))
    as (K1 & K2 & K3 & Hcode).
  - exists "ss_live_abc123", [], []. vm_compute. reflexivity.
  - apply call_GetProductDetails.
  - reflexivity.
  - split; [exact K1 |]. split; [exact K2 |]. split; [exact K3 |].
    apply Hcode. exact I.
Defined.

Section Responses.

Variable transport : list Request -> Request -> Outcome.
Context {U1 : Unmarshal ProductSearchResult}
        {U2 : Unmarshal (APIResponse (list ProductDetails))}
        {U3 : Unmarshal (APIResponse (list ProductWithOffers))}
        {U4 : Unmarshal (APIResponse (list OfferWithHistory))}
        {U5 : Unmarshal (APIResponse ScheduleResponse)}
        {U6 : Unmarshal (APIResponse (list ScheduleBatchResponse))}
        {U7 : Unmarshal (APIResponse (list ScheduledProduct))}
        {U8 : Unmarshal (APIResponse RemoveResponse)}
        {U9 : Unmarshal (APIResponse (list RemoveBatchResponse))}
        {U10 : Unmarshal (APIResponse UsageInfo)}.

(** When the service answers with a status above 399, every endpoint
    method, on a client that [NewClient] returned, fails with exactly the
    error [handleErrorResponse] makes of the response: no method swallows
    it, replaces it or wraps it. *)
Theorem endpointCall_error_response (c : Client) (log : list Request)
    (r : option error * list Request) (resp : Response) :
  builtByNewClient c ->
  endpointCall transport c log r ->
  (forall req : Request, transport log req = Responded resp) ->
  399 < resp_StatusCode resp ->
  fst r = Some (handleErrorResponse resp).
Proof.
  intros Hc Hcall Hanswer Hcode.
  destruct (endpointCall_round_trip transport c log r Hcall)
    as (req & x & -> & _ & _ & Hresp).
  specialize (Hresp resp (Hanswer req)). rewrite (NewClient_hook c resp Hc) in Hresp.
  unfold IsError in Hresp. apply Z.ltb_lt in Hcode. rewrite Hcode in Hresp.
  exact Hresp.
Qed.

(** The line between success and failure is the status 399, on a client
    that [NewClient] returned.  A call returns a value only when the HTTP
    stack returned a response with a status of 399 or less.  And a response
    with such a status, a 3xx that the stack returns (it did not follow it)
    included, is never turned into one of the package's errors: the call
    returns a value, unless the result cannot be unmarshalled. *)
Theorem endpointCall_status_399 (c : Client) (log : list Request)
    (r : option error * list Request) :
  builtByNewClient c ->
  endpointCall transport c log r ->
  (fst r = None ->
   exists (req : Request) (resp : Response),
     snd r = (log ++ [req])%list /\
     transport log req = Responded resp /\
     resp_StatusCode resp <= 399) /\
  (forall resp : Response,
     (forall req : Request, transport log req = Responded resp) ->
     resp_StatusCode resp <= 399 ->
     fst r = None \/ exists reason : string, fst r = Some (UnmarshalError reason)).
Proof.
  intros Hc Hcall.
  destruct (endpointCall_round_trip transport c log r Hcall)
    as (req & x & -> & _ & Hfail & Hresp).
  cbn [fst snd]. split.
  - intros ->. exists req.
    destruct (transport log req) as [fault | resp] eqn:Ht.
    + specialize (Hfail fault eq_refl). discriminate Hfail.
    + exists resp. split; [reflexivity |]. split; [reflexivity |].
      specialize (Hresp resp eq_refl). rewrite (NewClient_hook c resp Hc) in Hresp.
      unfold IsError in Hresp.
      destruct (Z.ltb_spec 399 (resp_StatusCode resp)) as [Hlt | Hle].
      * discriminate Hresp.
      * exact Hle.
  - intros resp Hanswer Hle.
    specialize (Hresp resp (Hanswer req)). rewrite (NewClient_hook c resp Hc) in Hresp.
    unfold IsError in Hresp.
    destruct (Z.ltb_spec 399 (resp_StatusCode resp)) as [Hlt | _]; [lia |].
    exact Hresp.
Qed.

End Responses.

Lemma endpointCall_error_response_witness :
  fst (outcome (RemoveProductFromSchedule (answering response404) (U8 := noResult _)
                  sampleClient "012345678901" []))
    = Some (handleErrorResponse response404).
Proof.
  apply (endpointCall_error_response (answering response404)
           (U1 := noResult _) (U2 := noResult _) (U3 := noResult _) (U4 := noResult _)
           (U5 := noResult _) (U6 := noResult _) (U7 := noResult _) (U8 := noResult _)
           (U9 := noResult _) (U10 := noResult _) sampleClient []).
  - exists "ss_live_abc123", [], []. vm_compute. reflexivity.
  - apply call_RemoveProductFromSchedule.
  - intros req. reflexivity.
  - simpl. lia.
Defined.

Lemma endpointCall_status_399_witness :
  (exists (req : Request) (resp : Response),
     snd (outcome (GetScheduledProducts (answering response200) (U7 := noScheduled)
                     sampleClient []))
       = ([] ++ [req])%list /\
     answering response200 [] req = Responded resp /\
     resp_StatusCode resp <= 399) /\
  (fst (outcome (GetScheduledProducts (answering response304) (U7 := noScheduled)
                   sampleClient [])) = None \/
   exists reason : string,
     fst (outcome (GetScheduledProducts (answering response304) (U7 := noScheduled)
                     sampleClient [])) = Some (UnmarshalError reason)).
Proof.
  split.
  - apply (proj1 (endpointCall_status_399 (answering response200)
             (U1 := noResult _) (U2 := noResult _) (U3 := noResult _) (U4 := noResult _)
             (U5 := noResult _) (U6 := noResult _) (U7 := noScheduled) (U8 := noResult _)
             (U9 := noResult _) (U10 := noResult _) sampleClient []
             (outcome (GetScheduledProducts (answering response200) (U7 := noScheduled)
                         sampleClient []))
             sampleClient_builtByNewClient
             (call_GetScheduledProducts (answering response200)
                (U1 := noResult _) (U2 := noResult _) (U3 := noResult _)
                (U4 := noResult _) (U5 := noResult _) (U6 := noResult _)
                (U7 := noScheduled) (U8 := noResult _) (U9 := noResult _)
                (U10 := noResult _) sampleClient []))).
    reflexivity.
  - apply (proj2 (endpointCall_status_399 (answering response304)
             (U1 := noResult _) (U2 := noResult _) (U3 := noResult _) (U4 := noResult _)
             (U5 := noResult _) (U6 := noResult _) (U7 := noScheduled) (U8 := noResult _)
             (U9 := noResult _) (U10 := noResult _) sampleClient []
             (outcome (GetScheduledProducts (answering response304) (U7 := noScheduled)
                         sampleClient []))
             sampleClient_builtByNewClient
             (call_GetScheduledProducts (answering response304)
                (U1 := noResult _) (U2 := noResult _) (U3 := noResult _)
                (U4 := noResult _) (U5 := noResult _) (U6 := noResult _)
                (U7 := noScheduled) (U8 := noResult _) (U9 := noResult _)
                (U10 := noResult _) sampleClient []))
             response304).
    + intros req. reflexivity.
    + simpl. lia.
Defined.

(** ** Parameters on the wire *)

Lemma firstNonEmpty_Some (v : list string) (f : string) :
  firstNonEmpty v = Some f <-> leadsWith v f.
Proof.
  unfold firstNonEmpty, leadsWith. destruct v as [| g rest].
  - split; [discriminate | intros (_ & rest & Habs); discriminate Habs].
  - destruct (String.eqb_spec g "") as [-> | Hne]; simpl; split.
    + discriminate.
    + intros (Hf & rest' & [= <- _]). contradiction.
    + intros [= <-]. split; [exact Hne | eauto].
    + intros (_ & rest' & [= <- _]). reflexivity.
Qed.

Lemma lookup_setIf_eq (key : string) (v : option string) (m : gmap string string) :
  m !! key = None -> setIf key v m !! key = v.
Proof.
  intros Hnone. destruct v as [x |]; simpl; [apply lookup_insert_eq | exact Hnone].
Qed.

Lemma lookup_retailer (retailer : string) (m : gmap string string) (x : string) :
  m !! "retailer" = None ->
  (if negb (String.eqb retailer "") then <["retailer" := retailer]> m else m) !! "retailer"
    = Some x <-> (x = retailer /\ retailer <> "").
Proof.
  intros Hnone. destruct (String.eqb_spec retailer "") as [-> | Hne]; simpl.
  - rewrite Hnone. split; [discriminate | intros [_ Habs]; contradiction].
  - rewrite lookup_insert_eq. split; [intros [= <-]; auto | intros [-> _]; reflexivity].
Qed.

Lemma lookup_retailer_ne (retailer key : string) (m : gmap string string) :
  key <> "retailer" ->
  (if negb (String.eqb retailer "") then <["retailer" := retailer]> m else m) !! key
    = m !! key.
Proof.
  intros Hne. destruct (negb _); [| reflexivity]. now rewrite lookup_insert_ne.
Qed.

Lemma lookup_positive (key : string) (n : Z) (m : gmap string string) (x : string) :
  m !! key = None ->
  (if 0 <? n then <[key := fmt_d n]> m else m) !! key = Some x <-> (0 < n /\ x = fmt_d n).
Proof.
  intros Hnone. destruct (Z.ltb_spec 0 n) as [Hpos | Hle].
  - rewrite lookup_insert_eq. split; [intros [= <-]; auto | intros [_ ->]; reflexivity].
  - rewrite Hnone. split; [discriminate | intros [Habs _]; lia].
Qed.

Lemma lookup_positive_ne (key k : string) (n : Z) (m : gmap string string) :
  k <> key ->
  (if 0 <? n then <[key := fmt_d n]> m else m) !! k = m !! k.
Proof.
  intros Hne. destruct (0 <? n); [| reflexivity]. now rewrite lookup_insert_ne.
Qed.

Section Parameters.

Variable transport : list Request -> Request -> Outcome.
Context {U1 : Unmarshal ProductSearchResult}
        {U2 : Unmarshal (APIResponse (list ProductDetails))}
        {U3 : Unmarshal (APIResponse (list ProductWithOffers))}
        {U4 : Unmarshal (APIResponse (list OfferWithHistory))}
        {U5 : Unmarshal (APIResponse ScheduleResponse)}
        {U6 : Unmarshal (APIResponse (list ScheduleBatchResponse))}
        {U7 : Unmarshal (APIResponse (list ScheduledProduct))}
        {U8 : Unmarshal (APIResponse RemoveResponse)}
        {U9 : Unmarshal (APIResponse (list RemoveBatchResponse))}
        {U10 : Unmarshal (APIResponse UsageInfo)}.

Ltac the_request :=
  unfold sendsQuery, sendsBody; to_round_trip; rewrite Execute_log;
  eexists; split; [reflexivity |].

(** [SearchProducts] sends [GET /products/search] with the query as [q],
    even when it is empty.  [limit] and [offset] travel, in decimal, only
    when they are positive: zero and negative values are dropped without an
    error.  There is no other parameter. *)
Theorem SearchProducts_parameters (c : Client) (query : string) (limit offset : Z)
    (log : list Request) :
  sendsQuery (SearchProducts transport c query limit offset log) log c "/products/search"
    (fun p =>
       p !! "q" = Some query /\
       (forall x, p !! "limit" = Some x <-> (0 < limit /\ x = fmt_d limit)) /\
       (forall x, p !! "offset" = Some x <-> (0 < offset /\ x = fmt_d offset)) /\
       (forall k, k <> "q" -> k <> "limit" -> k <> "offset" -> p !! k = None)).
Proof.
  the_request. split; [| split; [| split]].
  - rewrite !lookup_positive_ne by discriminate. apply lookup_singleton_eq.
  - intros x. rewrite lookup_positive_ne by discriminate.
    apply lookup_positive. now apply lookup_singleton_ne.
  - intros x. apply lookup_positive.
    rewrite lookup_positive_ne by discriminate. now apply lookup_singleton_ne.
  - intros k Hq Hl Ho. rewrite !lookup_positive_ne by congruence.
    apply lookup_singleton_ne. congruence.
Qed.

(** [GetProductDetails] sends [GET /products] with the identifier as [ids],
    as it is given.  Of the variadic [format] only the first value counts,
    and only when it is not empty; it travels as [format].  There is no
    other parameter. *)
Theorem GetProductDetails_parameters (c : Client) (identifier : string)
    (format : list string) (log : list Request) :
  sendsQuery (GetProductDetails transport c identifier format log) log c "/products"
    (fun p =>
       p !! "ids" = Some identifier /\
       (forall f, p !! "format" = Some f <-> leadsWith format f) /\
       (forall k, k <> "ids" -> k <> "format" -> p !! k = None)).
Proof.
  the_request. split; [| split].
  - rewrite lookup_setIf_ne by discriminate. apply lookup_singleton_eq.
  - intros f. rewrite lookup_setIf_eq by (now apply lookup_singleton_ne).
    apply firstNonEmpty_Some.
  - intros k Hi Hf. rewrite lookup_setIf_ne by congruence.
    apply lookup_singleton_ne. congruence.
Qed.

(** [GetCurrentOffers] sends [GET /products/offers] with the identifier as
    [ids]; the retailer filter travels as [retailer] unless it is empty; the
    first value of [format], unless empty, as [format]. *)
Theorem GetCurrentOffers_parameters (c : Client) (identifier retailer : string)
    (format : list string) (log : list Request) :
  sendsQuery (GetCurrentOffers transport c identifier retailer format log) log c
    "/products/offers"
    (fun p =>
       p !! "ids" = Some identifier /\
       (forall x, p !! "retailer" = Some x <-> (x = retailer /\ retailer <> "")) /\
       (forall f, p !! "format" = Some f <-> leadsWith format f) /\
       (forall k, k <> "ids" -> k <> "retailer" -> k <> "format" -> p !! k = None)).
Proof.
  the_request. split; [| split; [| split]].
  - rewrite lookup_setIf_ne by discriminate. rewrite lookup_retailer_ne by discriminate.
    apply lookup_singleton_eq.
  - intros x. rewrite lookup_setIf_ne by discriminate.
    apply lookup_retailer. now apply lookup_singleton_ne.
  - intros f. rewrite lookup_setIf_eq; [apply firstNonEmpty_Some |].
    rewrite lookup_retailer_ne by discriminate. now apply lookup_singleton_ne.
  - intros k Hi Hr Hf. rewrite lookup_setIf_ne by congruence.
    rewrite lookup_retailer_ne by congruence. apply lookup_singleton_ne. congruence.
Qed.

(** [GetPriceHistory] sends [GET /products/offers/history] with the
    identifier and both dates, each as it is given (no date is parsed,
    ordered or required to be non-empty); [retailer] and [format] are
    optional as elsewhere. *)
Theorem GetPriceHistory_parameters (c : Client)
    (identifier startDate endDate retailer : string) (format : list string)
    (log : list Request) :
  sendsQuery (GetPriceHistory transport c identifier startDate endDate retailer format log)
    log c "/products/offers/history"
    (fun p =>
       p !! "ids" = Some identifier /\
       p !! "start_date" = Some startDate /\
       p !! "end_date" = Some endDate /\
       (forall x, p !! "retailer" = Some x <-> (x = retailer /\ retailer <> "")) /\
       (forall f, p !! "format" = Some f <-> leadsWith format f) /\
       (forall k, k <> "ids" -> k <> "start_date" -> k <> "end_date" ->
                  k <> "retailer" -> k <> "format" -> p !! k = None)).
Proof.
  the_request.
  assert (Hbase : forall k, k <> "ids" -> k <> "start_date" -> k <> "end_date" ->
            (<["end_date" := endDate]> (<["start_date" := startDate]>
               ({[ "ids" := identifier ]} : gmap string string))) !! k = None).
  { intros k Hi Hs He. rewrite !lookup_insert_ne by congruence.
    apply lookup_singleton_ne. congruence. }
  split; [| split; [| split; [| split; [| split]]]].
  - rewrite lookup_setIf_ne by discriminate. rewrite lookup_retailer_ne by discriminate.
    rewrite !lookup_insert_ne by discriminate. apply lookup_singleton_eq.
  - rewrite lookup_setIf_ne by discriminate. rewrite lookup_retailer_ne by discriminate.
    rewrite lookup_insert_ne by discriminate. apply lookup_insert_eq.
  - rewrite lookup_setIf_ne by discriminate. rewrite lookup_retailer_ne by discriminate.
    apply lookup_insert_eq.
  - intros x. rewrite lookup_setIf_ne by discriminate.
    apply lookup_retailer. apply Hbase; discriminate.
  - intros f. rewrite lookup_setIf_eq; [apply firstNonEmpty_Some |].
    rewrite lookup_retailer_ne by discriminate. apply Hbase; discriminate.
  - intros k Hi Hs He Hr Hf. rewrite lookup_setIf_ne by congruence.
    rewrite lookup_retailer_ne by congruence. apply Hbase; assumption.
Qed.

End Parameters.

Section Bodies.

Variable transport : list Request -> Request -> Outcome.
Context {U2 : Unmarshal (APIResponse (list ProductDetails))}
        {U3 : Unmarshal (APIResponse (list ProductWithOffers))}
        {U5 : Unmarshal (APIResponse ScheduleResponse)}
        {U6 : Unmarshal (APIResponse (list ScheduleBatchResponse))}
        {U7 : Unmarshal (APIResponse (list ScheduledProduct))}
        {U8 : Unmarshal (APIResponse RemoveResponse)}
        {U9 : Unmarshal (APIResponse (list RemoveBatchResponse))}
        {U10 : Unmarshal (APIResponse UsageInfo)}.

Ltac the_request :=
  unfold sendsQuery, sendsBody; to_round_trip; rewrite Execute_log;
  eexists; split; [reflexivity |].

(** Both scheduling methods send [POST /products/schedule] with the
    frequency as given and, of the variadic [retailer], the first value
    unless it is empty.  The single method names its identifier
    [identifier] and the batch method names the joined identifiers
    [identifiers], never the other way round: scheduling a batch of one is
    not the same request as scheduling that one. *)
Theorem ScheduleProductMonitoring_body (c : Client) (identifier frequency : string)
    (identifiers retailer : list string) (log : list Request) :
  sendsBody (ScheduleProductMonitoring transport c identifier frequency retailer log)
    log c POST "/products/schedule"
    (fun b =>
       b !! "identifier" = Some identifier /\
       b !! "identifiers" = None /\
       b !! "frequency" = Some frequency /\
       (forall x, b !! "retailer" = Some x <-> leadsWith retailer x) /\
       (forall k, k <> "identifier" -> k <> "frequency" -> k <> "retailer" ->
                  b !! k = None)) /\
  sendsBody (ScheduleProductMonitoringBatch transport c identifiers frequency retailer log)
    log c POST "/products/schedule"
    (fun b =>
       b !! "identifiers" = Some (Join identifiers ",") /\
       b !! "identifier" = None /\
       b !! "frequency" = Some frequency /\
       (forall x, b !! "retailer" = Some x <-> leadsWith retailer x) /\
       (forall k, k <> "identifiers" -> k <> "frequency" -> k <> "retailer" ->
                  b !! k = None)).
Proof.
  split; the_request.
  - split; [| split; [| split; [| split]]].
    + rewrite lookup_setIf_ne by discriminate.
      rewrite lookup_insert_ne by discriminate. apply lookup_singleton_eq.
    + rewrite lookup_setIf_ne by discriminate.
      rewrite lookup_insert_ne by discriminate. now apply lookup_singleton_ne.
    + rewrite lookup_setIf_ne by discriminate. apply lookup_insert_eq.
    + intros x. rewrite lookup_setIf_eq; [apply firstNonEmpty_Some |].
      rewrite lookup_insert_ne by discriminate. now apply lookup_singleton_ne.
    + intros k Hi Hf Hr. rewrite lookup_setIf_ne by congruence.
      rewrite lookup_insert_ne by congruence. apply lookup_singleton_ne. congruence.
  - split; [| split; [| split; [| split]]].
    + rewrite lookup_setIf_ne by discriminate.
      rewrite lookup_insert_ne by discriminate. apply lookup_singleton_eq.
    + rewrite lookup_setIf_ne by discriminate.
      rewrite lookup_insert_ne by discriminate. now apply lookup_singleton_ne.
    + rewrite lookup_setIf_ne by discriminate. apply lookup_insert_eq.
    + intros x. rewrite lookup_setIf_eq; [apply firstNonEmpty_Some |].
      rewrite lookup_insert_ne by discriminate. now apply lookup_singleton_ne.
    + intros k Hi Hf Hr. rewrite lookup_setIf_ne by congruence.
      rewrite lookup_insert_ne by congruence. apply lookup_singleton_ne. congruence.
Qed.

(** Both removal methods send [DELETE /products/schedule] with a body of a
    single field: [identifier] for the one, [identifiers], joined, for the
    many. *)
Theorem RemoveFromSchedule_body (c : Client) (identifier : string)
    (identifiers : list string) (log : list Request) :
  snd (RemoveProductFromSchedule transport c identifier log)
    = (log ++ [bodyRequest c DELETE "/products/schedule"
                 {[ "identifier" := identifier ]}])%list /\
  snd (RemoveProductsFromSchedule transport c identifiers log)
    = (log ++ [bodyRequest c DELETE "/products/schedule"
                 {[ "identifiers" := Join identifiers "," ]}])%list.
Proof.
  split; to_round_trip; rewrite Execute_log; reflexivity.
Qed.

(** [GetScheduledProducts] and [GetUsage] send a bare [GET], without any
    parameter or body. *)
Theorem bare_requests (c : Client) (log : list Request) :
  snd (GetScheduledProducts transport c log)
    = (log ++ [queryRequest c "/products/scheduled" ∅])%list /\
  snd (GetUsage transport c log) = (log ++ [queryRequest c "/usage" ∅])%list.
Proof.
  split; to_round_trip; rewrite Execute_log; reflexivity.
Qed.

(** The two batch lookups are the single lookups at the joined identifiers:
    same request, same result, for every list.  So a batch of one is the
    single call, and an empty batch is the single call with an empty
    identifier; it is sent all the same. *)
Theorem batch_lookup_is_single_lookup (c : Client) (identifiers : list string)
    (retailer : string) (format : list string) :
  GetProductDetailsBatch transport c identifiers format
    = GetProductDetails transport c (Join identifiers ",") format /\
  GetCurrentOffersBatch transport c identifiers retailer format
    = GetCurrentOffers transport c (Join identifiers ",") retailer format /\
  (forall identifier : string,
     GetProductDetailsBatch transport c [identifier] format
       = GetProductDetails transport c identifier format /\
     GetCurrentOffersBatch transport c [identifier] retailer format
       = GetCurrentOffers transport c identifier retailer format) /\
  GetProductDetailsBatch transport c [] format
    = GetProductDetails transport c "" format.
Proof.
  repeat split.
Qed.

End Bodies.

(** ** Joined identifiers *)

Lemma concat_cons2 (sep x y : string) (l : list string) :
  String.concat sep (x :: y :: l) = x ++ sep ++ String.concat sep (y :: l).
Proof. reflexivity. Qed.

Lemma splitOn_cons_sep (sep : ascii) (s : string) :
  splitOn sep (String sep s) = "" :: splitOn sep s.
Proof. simpl. now rewrite Ascii.eqb_refl. Qed.

Lemma splitOn_nonempty (sep : ascii) (s : string) : splitOn sep s <> [].
Proof.
  induction s as [| ch s IH]; simpl; [discriminate |].
  destruct (Ascii.eqb ch sep); [discriminate |].
  destruct (splitOn sep s); [contradiction | discriminate].
Qed.

Lemma splitOn_free_app (sep : ascii) (a rest : string) :
  freeOf sep a ->
  splitOn sep (a ++ String sep rest) = a :: splitOn sep rest.
Proof.
  unfold freeOf. induction a as [| ch a IH]; intros Hfree.
  - rewrite append_nil_l. apply splitOn_cons_sep.
  - simpl in Hfree. inversion Hfree as [| ? ? Hch Ha]; subst.
    rewrite append_cons. simpl.
    apply Ascii.eqb_neq in Hch. rewrite Hch. rewrite (IH Ha). reflexivity.
Qed.

Lemma splitOn_free (sep : ascii) (a : string) : freeOf sep a -> splitOn sep a = [a].
Proof.
  unfold freeOf. induction a as [| ch a IH]; intros Hfree; [reflexivity |].
  simpl in Hfree. inversion Hfree as [| ? ? Hch Ha]; subst. simpl.
  apply Ascii.eqb_neq in Hch. rewrite Hch. rewrite (IH Ha). reflexivity.
Qed.

Lemma splitOn_concat (sep : ascii) (l : list string) :
  l <> [] -> Forall (freeOf sep) l ->
  splitOn sep (String.concat (String sep "") l) = l.
Proof.
  induction l as [| x l IH]; intros Hne Hfree; [contradiction |].
  inversion Hfree as [| ? ? Hx Hl]; subst.
  destruct l as [| y l].
  - simpl. apply splitOn_free, Hx.
  - rewrite concat_cons2. rewrite append_cons, append_nil_l.
    rewrite (splitOn_free_app sep x _ Hx). f_equal. apply IH; [discriminate | exact Hl].
Qed.

(** Cutting the joined text at the commas gives the identifiers back,
    provided there is at least one identifier and none holds a comma. *)
Lemma Join_splitOn (identifiers : list string) :
  identifiers <> [] -> Forall (freeOf ","%char) identifiers ->
  splitOn ","%char (Join identifiers ",") = identifiers.
Proof. intros Hne Hfree. rewrite Join_concat. now apply splitOn_concat. Qed.

Lemma Join_comma_merge (a b : string) (rest : list string) :
  Join ((a ++ "," ++ b) :: rest) "," = Join (a :: b :: rest) ",".
Proof.
  rewrite !Join_concat. destruct rest as [| x rest].
  - reflexivity.
  - rewrite !concat_cons2. now rewrite !append_assoc.
Qed.

Section JoinedIdentifiers.

Variable transport : list Request -> Request -> Outcome.
Context {U2 : Unmarshal (APIResponse (list ProductDetails))}
        {U3 : Unmarshal (APIResponse (list ProductWithOffers))}
        {U6 : Unmarshal (APIResponse (list ScheduleBatchResponse))}
        {U9 : Unmarshal (APIResponse (list RemoveBatchResponse))}.

Ltac the_request :=
  unfold sendsQuery, sendsBody; to_round_trip; rewrite Execute_log;
  eexists; split; [reflexivity |].

(** Round trip of a batch.  When there is at least one identifier and no
    identifier holds a comma, the receiver of each batch request gets the
    identifiers back, in order, by cutting the parameter at the commas. *)
Theorem batch_identifiers_round_trip (c : Client) (identifiers : list string)
    (retailer frequency : string) (format retailers : list string) (log : list Request) :
  identifiers <> [] ->
  Forall (freeOf ","%char) identifiers ->
  sendsQuery (GetProductDetailsBatch transport c identifiers format log) log c "/products"
    (fun p => splitOn ","%char <$> p !! "ids" = Some identifiers) /\
  sendsQuery (GetCurrentOffersBatch transport c identifiers retailer format log) log c
    "/products/offers"
    (fun p => splitOn ","%char <$> p !! "ids" = Some identifiers) /\
  sendsBody (ScheduleProductMonitoringBatch transport c identifiers frequency retailers log)
    log c POST "/products/schedule"
    (fun b => splitOn ","%char <$> b !! "identifiers" = Some identifiers) /\
  sendsBody (RemoveProductsFromSchedule transport c identifiers log)
    log c DELETE "/products/schedule"
    (fun b => splitOn ","%char <$> b !! "identifiers" = Some identifiers).
Proof.
  intros Hne Hfree. pose proof (Join_splitOn identifiers Hne Hfree) as Hsplit.
  split; [| split; [| split]]; the_request.
  - rewrite lookup_setIf_ne by discriminate. rewrite lookup_singleton_eq.
    simpl. now rewrite Hsplit.
  - rewrite lookup_setIf_ne by discriminate. rewrite lookup_retailer_ne by discriminate.
    rewrite lookup_singleton_eq. simpl. now rewrite Hsplit.
  - rewrite lookup_setIf_ne by discriminate. rewrite lookup_insert_ne by discriminate.
    rewrite lookup_singleton_eq. simpl. now rewrite Hsplit.
  - rewrite lookup_singleton_eq. simpl. now rewrite Hsplit.
Qed.

(** Without that proviso the batch is ambiguous: the identifiers are joined
    as they are, nothing is escaped or refused.  An identifier that holds a
    comma (a product URL may) makes the same call as its two halves given
    as two identifiers, and the batch of the one empty identifier makes the
    same call as the empty batch, in each of the four batch methods. *)
Theorem batch_identifiers_not_escaped (c : Client) (a b retailer frequency : string)
    (rest format retailers : list string) :
  GetProductDetailsBatch transport c ((a ++ "," ++ b) :: rest) format
    = GetProductDetailsBatch transport c (a :: b :: rest) format /\
  GetCurrentOffersBatch transport c ((a ++ "," ++ b) :: rest) retailer format
    = GetCurrentOffersBatch transport c (a :: b :: rest) retailer format /\
  ScheduleProductMonitoringBatch transport c ((a ++ "," ++ b) :: rest) frequency retailers
    = ScheduleProductMonitoringBatch transport c (a :: b :: rest) frequency retailers /\
  RemoveProductsFromSchedule transport c ((a ++ "," ++ b) :: rest)
    = RemoveProductsFromSchedule transport c (a :: b :: rest) /\
  GetProductDetailsBatch transport c [""] format
    = GetProductDetailsBatch transport c [] format /\
  GetCurrentOffersBatch transport c [""] retailer format
    = GetCurrentOffersBatch transport c [] retailer format /\
  ScheduleProductMonitoringBatch transport c [""] frequency retailers
    = ScheduleProductMonitoringBatch transport c [] frequency retailers /\
  RemoveProductsFromSchedule transport c [""] = RemoveProductsFromSchedule transport c [].
Proof.
  unfold GetProductDetailsBatch, GetCurrentOffersBatch, ScheduleProductMonitoringBatch,
    RemoveProductsFromSchedule.
  rewrite !Join_comma_merge. repeat split.
Qed.

End JoinedIdentifiers.

Lemma batch_identifiers_round_trip_witness :
  sendsBody (RemoveProductsFromSchedule slowTransport (U9 := noResult _) sampleClient
               ["012345678901"; "B08N5WRWNW"] [])
    [] sampleClient DELETE "/products/schedule"
    (fun b => splitOn ","%char <$> b !! "identifiers"
              = Some ["012345678901"; "B08N5WRWNW"]).
Proof.
  apply (batch_identifiers_round_trip slowTransport
           (U2 := noResult _) (U3 := noResult _) (U6 := noResult _) (U9 := noResult _)
           sampleClient ["012345678901"; "B08N5WRWNW"] "" "" [] [] []).
  - discriminate.
  - repeat constructor; discriminate.
Defined.

(** ** Error values and their text *)

(** Every error [handleErrorResponse] makes has a message, and the message
    is not empty: a fixed text, the message of the service, or the fallback
    that starts with [HTTP]. *)
Theorem handleErrorResponse_message_nonempty (resp : Response) :
  exists m : string, Message (handleErrorResponse resp) = Some m /\ m <> "".
Proof.
  rewrite handleErrorResponse_eq. cbv zeta.
  repeat match goal with
         | |- context [Z.eqb ?a ?b] => destruct (Z.eqb a b)
         end; simpl Message; try (eexists; split; [reflexivity | discriminate]).
  destruct (resp_Error resp) as [errorResp |].
  - destruct (String.eqb_spec (ErrorField errorResp) "") as [Hemp | Hne]; simpl.
    + eexists; split; [reflexivity |]. unfold fallbackMessage.
      rewrite append_cons. discriminate.
    + eexists; split; [reflexivity | exact Hne].
  - eexists; split; [reflexivity |]. unfold fallbackMessage.
    rewrite append_cons. discriminate.
Qed.

Lemma pretty_N_char_not_paren (d : N) : pretty_N_char d <> ")"%char.
Proof. unfold pretty_N_char. repeat case_match; discriminate. Qed.

Lemma pretty_N_go_free (x : N) :
  forall s : string, freeOf ")"%char s -> freeOf ")"%char (pretty_N_go x s).
Proof.
  induction (N.lt_wf_0 x) as [x _ IH]; intros s Hs.
  destruct (N.eq_dec x 0%N) as [-> | Hpos].
  - now rewrite pretty_N_go_0.
  - rewrite pretty_N_go_step by lia. apply IH.
    + apply N.div_lt; lia.
    + unfold freeOf in *. simpl. constructor; [apply pretty_N_char_not_paren | exact Hs].
Qed.

Lemma fmt_d_free (n : Z) : freeOf ")"%char (fmt_d n).
Proof.
  assert (Hpos : forall p : positive, freeOf ")"%char (pretty (N.pos p))).
  { intros p. unfold pretty, pretty_N. destruct (decide (N.pos p = 0%N)); [discriminate |].
    apply pretty_N_go_free. constructor. }
  unfold fmt_d, pretty, pretty_Z. destruct n as [| p | p].
  - repeat constructor; discriminate.
  - apply Hpos.
  - rewrite append_cons, append_nil_l. unfold freeOf. simpl.
    constructor; [discriminate | apply Hpos].
Qed.

Lemma append_free_inj (c : ascii) (u1 u2 r1 r2 : string) :
  freeOf c u1 -> freeOf c u2 ->
  u1 ++ String c r1 = u2 ++ String c r2 -> u1 = u2 /\ r1 = r2.
Proof.
  unfold freeOf. revert u2.
  induction u1 as [| x u1 IH]; intros [| y u2] H1 H2 Heq;
    rewrite ?append_cons, ?append_nil_l in Heq.
  - injection Heq as ->. auto.
  - injection Heq as <- _. simpl in H2. inversion H2; contradiction.
  - injection Heq as -> _. simpl in H1. inversion H1; contradiction.
  - injection Heq as -> Heq. simpl in H1, H2. inversion H1; inversion H2; subst.
    destruct (IH u2) as [-> ->]; auto.
Qed.

Lemma coded_text_inj (label m1 m2 : string) (c1 c2 : Z) :
  label ++ fmt_d c1 ++ "): " ++ m1 = label ++ fmt_d c2 ++ "): " ++ m2 ->
  c1 = c2 /\ m1 = m2.
Proof.
  intros Heq. apply String.app_inj in Heq.
  rewrite !(append_cons ")"%char) in Heq.
  apply append_free_inj in Heq as [Hc Hm]; try apply fmt_d_free.
  split.
  - unfold fmt_d in Hc. now apply (inj pretty) in Hc.
  - now apply String.app_inj in Hm.
Qed.

Ltac spell H := repeat rewrite append_cons in H; try discriminate H.

(** The text of [Error()] tells the error: two errors of the package's
    struct types with the same text are the same error, of the same type,
    with the same status code and message. *)
Theorem Error_injective (e1 e2 : error) :
  typedError e1 -> typedError e2 -> Error e1 = Error e2 -> e1 = e2.
Proof.
  intros T1 T2 Heq.
  destruct e1 as [m1 c1 | m1 c1 | m1 c1 | m1 c1 | m1 c1 | m1 | m1 | t1 | f1 | r1];
    try contradiction;
  destruct e2 as [m2 c2 | m2 c2 | m2 c2 | m2 c2 | m2 c2 | m2 | m2 | t2 | f2 | r2];
    try contradiction;
  simpl in Heq; injection Heq as Heq;
  first
    [ apply coded_text_inj in Heq as [-> ->]; reflexivity
    | apply String.app_inj in Heq; subst; reflexivity
    | spell Heq ].
Qed.

Lemma Error_injective_witness :
  handleErrorResponse response500 = APIError "HTTP 500: Internal Server Error" 500.
Proof.
  apply (Error_injective (handleErrorResponse response500)
           (APIError "HTTP 500: Internal Server Error" 500)).
  - exact I.
  - exact I.
  - vm_compute. reflexivity.
Defined.

(** ** Runs of the parameter properties *)

Lemma SearchProducts_parameters_witness :
  exists params : gmap string string,
    snd (SearchProducts slowTransport (U1 := noResult _) sampleClient "oled tv" 10 0 [])
      = ([] ++ [queryRequest sampleClient "/products/search" params])%list /\
    params !! "q" = Some "oled tv" /\
    params !! "limit" = Some "10" /\
    params !! "offset" = None.
Proof.
  destruct (SearchProducts_parameters slowTransport (U1 := noResult _)
              sampleClient "oled tv" 10 0 [])
    as (params & Hsent & Hq & Hlimit & Hoffset & _).
  exists params. split; [exact Hsent |]. split; [exact Hq |]. split.
  - apply Hlimit. split; [lia | reflexivity].
  - destruct (params !! "offset") as [x |] eqn:Ho; [| reflexivity].
    destruct (proj1 (Hoffset x) eq_refl) as [Hpos _]. lia.
Defined.

Lemma GetProductDetails_parameters_witness :
  exists params : gmap string string,
    snd (GetProductDetails slowTransport (U2 := noResult _) sampleClient
           "012345678901" ["csv"; "json"] [])
      = ([] ++ [queryRequest sampleClient "/products" params])%list /\
    params !! "ids" = Some "012345678901" /\
    params !! "format" = Some "csv".
Proof.
  destruct (GetProductDetails_parameters slowTransport (U2 := noResult _)
              sampleClient "012345678901" ["csv"; "json"] [])
    as (params & Hsent & Hids & Hformat & _).
  exists params. split; [exact Hsent |]. split; [exact Hids |].
  apply Hformat. split; [discriminate | eauto].
Defined.

Lemma GetCurrentOffers_parameters_witness :
  exists params : gmap string string,
    snd (GetCurrentOffers slowTransport (U3 := noResult _) sampleClient
           "012345678901" "amazon" [""] [])
      = ([] ++ [queryRequest sampleClient "/products/offers" params])%list /\
    params !! "retailer" = Some "amazon" /\
    params !! "format" = None.
Proof.
  destruct (GetCurrentOffers_parameters slowTransport (U3 := noResult _)
              sampleClient "012345678901" "amazon" [""] [])
    as (params & Hsent & _ & Hretailer & Hformat & _).
  exists params. split; [exact Hsent |]. split.
  - apply Hretailer. split; [reflexivity | discriminate].
  - destruct (params !! "format") as [f |] eqn:Hf; [| reflexivity].
    destruct (proj1 (Hformat f) eq_refl) as (Hne & rest & [= <- _]). contradiction.
Defined.

Lemma GetPriceHistory_parameters_witness :
  exists params : gmap string string,
    snd (GetPriceHistory slowTransport (U4 := noResult _) sampleClient
           "012345678901" "2024-02-01" "" "" [] [])
      = ([] ++ [queryRequest sampleClient "/products/offers/history" params])%list /\
    params !! "start_date" = Some "2024-02-01" /\
    params !! "end_date" = Some "" /\
    params !! "retailer" = None.
Proof.
  destruct (GetPriceHistory_parameters slowTransport (U4 := noResult _)
              sampleClient "012345678901" "2024-02-01" "" "" [] [])
    as (params & Hsent & _ & Hstart & Hend & Hretailer & _).
  exists params. split; [exact Hsent |]. split; [exact Hstart |]. split; [exact Hend |].
  destruct (params !! "retailer") as [x |] eqn:Hr; [| reflexivity].
  destruct (proj1 (Hretailer x) eq_refl) as [_ Hne]. contradiction.
Defined.

Lemma ScheduleProductMonitoring_body_witness :
  exists body : gmap string string,
    snd (ScheduleProductMonitoringBatch slowTransport (U6 := noResult _) sampleClient
           ["012345678901"] "daily" ["amazon"; "walmart"] [])
      = ([] ++ [bodyRequest sampleClient POST "/products/schedule" body])%list /\
    body !! "identifiers" = Some "012345678901" /\
    body !! "identifier" = None /\
    body !! "retailer" = Some "amazon".
Proof.
  destruct (ScheduleProductMonitoring_body slowTransport
              (U5 := noResult _) (U6 := noResult _)
              sampleClient "" "daily" ["012345678901"] ["amazon"; "walmart"] [])
    as (_ & body & Hsent & Hids & Hid & _ & Hretailer & _).
  exists body. split; [exact Hsent |]. split; [exact Hids |]. split; [exact Hid |].
  apply Hretailer. split; [discriminate | eauto].
Defined.
